(** * Ecommerce backend (FastAPI + MongoDB): a shallow embedding of [main.py]

    The handlers of [main.py] are embedded as functions over an explicit
    store state.  Python dictionaries are association lists, floats are
    IEEE-754 binary64 numbers ([spec_float]), identifiers are 96-bit
    ObjectIds, and an exception raised inside a [try] block is the left
    summand of a sum type.  A handler receives the request object pydantic
    has already validated against its declared field types, and the reading
    of the clock as an argument.  The store keeps documents in insertion
    order and puts no bound on their size. *)

From Stdlib Require Import List String Ascii Bool ZArith NArith QArith Lia.
From Stdlib Require Import Floats.SpecFloat DecimalString.
Import ListNotations.
Local Open Scope string_scope.
Local Open Scope Z_scope.

Set Warnings "-register-all".

(** ** Python values *)

Module Py.

(** binary64, the representation of a Python [float] *)
Definition float := spec_float.
Definition prec : Z := 53.
Definition emax : Z := 1024.

Definition fadd : float -> float -> float := SFadd prec emax.
Definition fsub : float -> float -> float := SFsub prec emax.
Definition fabs : float -> float := SFabs.
Definition fzero : float := S754_zero false.

(** [a >= b] on floats: false as soon as one side is a NaN *)
Definition fge (a b : float) : bool := SFleb b a.

Definition is_finite (x : float) : bool :=
  match x with
  | S754_zero _ | S754_finite _ _ _ => true
  | _ => false
  end.

Definition is_zero (x : float) : bool :=
  match x with
  | S754_zero _ => true
  | _ => false
  end.

(** The real number a finite float stands for. *)
Definition float_value (x : float) : option Q :=
  match x with
  | S754_zero _ => Some 0%Q
  | S754_finite s m e =>
      let q := (inject_Z (Zpos m) * Qpower 2 e)%Q in
      Some (if s then Qopp q else q)
  | _ => None
  end.

(** 24-hex-digit identifiers; an ObjectId is its 96-bit number. *)
Definition ObjectId := N.

Inductive value :=
| VNone
| VStr (s : string)
| VInt (z : Z)
| VFloat (f : float)
| VDatetime (t : Z)
| VObjectId (o : ObjectId)
| VList (l : list value)
| VDict (d : list (string * value)).

Definition dict := list (string * value).

(** [d[k]] as a lookup; the caller turns [None] into a [KeyError]. *)
Fixpoint dict_get (d : dict) (k : string) : option value :=
  match d with
  | [] => None
  | (k', v) :: d' => if String.eqb k' k then Some v else dict_get d' k
  end.

(** [d[k] = v]: overwrite in place, or append a new key at the end. *)
Fixpoint dict_set (d : dict) (k : string) (v : value) : dict :=
  match d with
  | [] => [(k, v)]
  | (k', v') :: d' =>
      if String.eqb k' k then (k', v) :: d' else (k', v') :: dict_set d' k v
  end.

Definition keys (d : dict) : list string := map fst d.

(** Truthiness of an optional string parameter: [None] and the empty string
    are both falsy. *)
Definition truthy_opt_str (o : option string) : bool :=
  match o with
  | Some (String _ _) => true
  | _ => false
  end.

Definition unwrap (o : option string) : string :=
  match o with
  | Some x => x
  | None => ""
  end.

End Py.
Import Py.

(** ** Hexadecimal text of identifiers *)

Module Hex.

Definition digit_char (n : N) : ascii :=
  if (n <? 10)%N then ascii_of_N (48 + n) else ascii_of_N (87 + n).

(** value of one hex digit, either case *)
Definition digit_val (c : ascii) : option N :=
  let n := N_of_ascii c in
  if ((48 <=? n) && (n <=? 57))%N then Some (n - 48)%N
  else if ((97 <=? n) && (n <=? 102))%N then Some (n - 87)%N
  else if ((65 <=? n) && (n <=? 70))%N then Some (n - 55)%N
  else None.

(** [k] digits of [n], most significant first *)
Fixpoint to_hex (k : nat) (n : N) : string :=
  match k with
  | O => ""
  | S k' => to_hex k' (n / 16)%N ++ String (digit_char (n mod 16)%N) ""
  end.

Fixpoint of_hex_acc (s : string) (acc : N) : option N :=
  match s with
  | "" => Some acc
  | String c s' =>
      match digit_val c with
      | Some d => of_hex_acc s' (16 * acc + d)%N
      | None => None
      end
  end.

Definition of_hex (s : string) : option N := of_hex_acc s 0%N.

End Hex.

(** ** Exceptions and their text *)

Inductive exn :=
| HTTPException (status_code : Z) (detail : string)
| InvalidId (msg : string)
| PyMongoError (msg : string)
| ValueError (msg : string)
| TypeError (msg : string)
| OverflowError (msg : string)
| AttributeError (msg : string)
| KeyError (key : string).

Definition dquote : ascii := ascii_of_nat 34.
Definition squote : ascii := ascii_of_nat 39.
Definition backslash : ascii := ascii_of_nat 92.

Fixpoint mem_char (c : ascii) (s : string) : bool :=
  match s with
  | "" => false
  | String c' s' => Ascii.eqb c c' || mem_char c s'
  end.

Fixpoint repr_body (q : ascii) (s : string) : string :=
  match s with
  | "" => ""
  | String c s' =>
      let n := N_of_ascii c in
      let rest := repr_body q s' in
      if Ascii.eqb c backslash then String backslash (String backslash rest)
      else if Ascii.eqb c q then String backslash (String q rest)
      else if (n =? 10)%N then String backslash (String "n" rest)
      else if (n =? 13)%N then String backslash (String "r" rest)
      else if (n =? 9)%N then String backslash (String "t" rest)
      else if ((n <? 32) || (n =? 127))%N
           then String backslash (String "x" (Hex.to_hex 2 n ++ rest))
      else String c rest
  end.

(** [repr] of a [str]: single quotes, unless the text has a single quote
    and no double quote.  The escapes are those of ASCII text; bytes above
    127 are copied, so the result is [repr] only for ASCII texts. *)
Definition repr_str (s : string) : string :=
  let q := if mem_char squote s && negb (mem_char dquote s)
           then dquote else squote in
  String q (repr_body q s ++ String q "").

Definition string_of_Z (z : Z) : string :=
  DecimalString.NilZero.string_of_int (Z.to_int z).

(** [str(e)] *)
Definition str_exn (e : exn) : string :=
  match e with
  | HTTPException c d => string_of_Z c ++ ": " ++ d
  | InvalidId m | PyMongoError m | ValueError m | TypeError m
  | OverflowError m | AttributeError m => m
  | KeyError k => repr_str k
  end.

(** ** bson.ObjectId *)

Definition str_ObjectId (o : ObjectId) : string := Hex.to_hex 24 o.

(** [ObjectId(oid)] for a [str]: a 24-character hex string, or [InvalidId].
    This is [ObjectId] on texts without ASCII whitespace.  On a 24-character
    text of hex pairs and blanks [bytes.fromhex] skips the blanks and the
    driver is left with an identifier shorter than 12 bytes; such texts are
    outside what is modelled, and the statements about rejected identifiers
    exclude them. *)
Definition ObjectId_of_str (oid : string) : exn + ObjectId :=
  let invalid :=
    InvalidId (repr_str oid ++
      " is not a valid ObjectId, it must be a 12-byte input or a 24-character hex string") in
  if (String.length oid =? 24)%nat then
    match Hex.of_hex oid with
    | Some n => inr n
    | None => inl invalid
    end
  else inl invalid.

(** An ObjectId has neither [__bool__] nor [__len__]: always truthy. *)
Definition ObjectId_truthy (o : ObjectId) : bool := true.

(** ** The document store *)

(** A stored document: its [_id] and the remaining fields. *)
Record document := { _id : ObjectId; fields : dict }.

(** The document as the driver hands it back: [_id] first. *)
Definition doc_value (d : document) : value :=
  VDict (("_id", VObjectId (_id d)) :: fields d).

(** State of the MongoDB deployment behind [MONGO_URL]: the collections of
    database "ecommerce" in insertion order, the identifier generator, and
    whether the server can be reached ([Some msg]: every round trip raises
    a driver error whose text is [msg]). *)
Record Store := {
  server_fault : option string;
  collections : list (string * list document);
  next_oid : ObjectId
}.

Fixpoint assoc_get {A} (l : list (string * A)) (k : string) : option A :=
  match l with
  | [] => None
  | (k', v) :: l' => if String.eqb k' k then Some v else assoc_get l' k
  end.

Fixpoint assoc_set {A} (l : list (string * A)) (k : string) (v : A)
  : list (string * A) :=
  match l with
  | [] => [(k, v)]
  | (k', v') :: l' =>
      if String.eqb k' k then (k', v) :: l' else (k', v') :: assoc_set l' k v
  end.

(** A collection that was never written to is empty. *)
Definition coll (s : Store) (name : string) : list document :=
  match assoc_get (collections s) name with
  | Some docs => docs
  | None => []
  end.

(** The reachable store after collection [c] is replaced by [docs] and the
    identifier generator has advanced to [n]. *)
Definition with_collection (s : Store) (c : string) (docs : list document)
  (n : ObjectId) : Store :=
  {| server_fault := None;
     collections := assoc_set (collections s) c docs;
     next_oid := n |}.

Definition products (s : Store) : list document := coll s "products".
Definition orders (s : Store) : list document := coll s "orders".

(** ** Handler computations: state passing with exceptions *)

Definition M (A : Type) : Type := Store -> (exn + A) * Store.

Definition ret {A} (a : A) : M A := fun s => (inr a, s).
Definition raise {A} (e : exn) : M A := fun s => (inl e, s).
Definition bind {A B} (c : M A) (k : A -> M B) : M B :=
  fun s =>
    match c s with
    | (inr a, s') => k a s'
    | (inl e, s') => (inl e, s')
    end.
Definition lift {A} (r : exn + A) : M A := fun s => (r, s).

Notation "x <- c ;; k" := (bind c (fun x => k))
  (at level 61, c at next level, right associativity).
Notation "c ;;; k" := (bind c (fun _ => k))
  (at level 61, right associativity).

(** ** Queries *)

Inductive condition :=
| CEqStr (s : string)
| CEqOid (o : ObjectId)
| CRegex (pattern options : string).

(** a filter document: field path to condition, all conditions ANDed *)
Definition query := list (string * condition).

(** What the deployment's interpreter and server contribute beyond the code
    of [main.py]: the server's regular-expression engine ([inl msg] when it
    rejects the pattern, otherwise the unanchored search predicate), and
    whether the builtin [sum] adds floats with Neumaier compensation
    (CPython 3.12 and later) or plainly. *)
Record Runtime := {
  regex_compile : string -> string -> string + (string -> bool);
  compensated_sum : bool
}.

Fixpoint split_on (sep : ascii) (s : string) : list string :=
  match s with
  | "" => [""]
  | String c s' =>
      if Ascii.eqb c sep then "" :: split_on sep s'
      else match split_on sep s' with
           | h :: t => String c h :: t
           | [] => [String c ""]
           end
  end.

(** Values found at a dotted path; an array on the way is searched through
    its embedded documents. *)
Fixpoint lookup_path (path : list string) (v : value) : list value :=
  match path with
  | [] => [v]
  | k :: rest =>
      let step (d : dict) :=
        match dict_get d k with
        | Some v' => lookup_path rest v'
        | None => []
        end in
      match v with
      | VDict d => step d
      | VList l =>
          flat_map (fun e => match e with VDict d => step d | _ => [] end) l
      | _ => []
      end
  end.

(** A condition holds of the value at the path, or of one element when
    that value is an array. *)
Definition leaf_test (t : value -> bool) (v : value) : bool :=
  t v || match v with VList l => existsb t l | _ => false end.

Definition compile_condition (rt : Runtime) (c : condition)
  : string + (value -> bool) :=
  match c with
  | CEqStr s =>
      inr (fun v => match v with VStr s' => String.eqb s' s | _ => false end)
  | CEqOid o =>
      inr (fun v => match v with VObjectId o' => N.eqb o' o | _ => false end)
  | CRegex p o =>
      match regex_compile rt p o with
      | inl msg => inl msg
      | inr m => inr (fun v => match v with VStr s' => m s' | _ => false end)
      end
  end.

Definition compiled_query := list (list string * (value -> bool)).

Fixpoint compile_query (rt : Runtime) (q : query) : string + compiled_query :=
  match q with
  | [] => inr []
  | (path, c) :: q' =>
      match compile_condition rt c with
      | inl msg => inl msg
      | inr t =>
          match compile_query rt q' with
          | inl msg => inl msg
          | inr ts => inr ((split_on "." path, t) :: ts)
          end
      end
  end.

Definition doc_matches (ts : compiled_query) (d : document) : bool :=
  forallb (fun pt => existsb (leaf_test (snd pt))
                             (lookup_path (fst pt) (doc_value d))) ts.

(** One round trip evaluating a filter over a collection. *)
Definition run_filter (rt : Runtime) (c : string) (q : query)
  : M (list document) :=
  fun s =>
    match server_fault s with
    | Some msg => (inl (PyMongoError msg), s)
    | None =>
        match compile_query rt q with
        | inl msg => (inl (PyMongoError msg), s)
        | inr ts => (inr (filter (doc_matches ts) (coll s c)), s)
        end
    end.

(** ** pymongo collections *)

Record InsertOneResult := { inserted_id : ObjectId }.

(** BSON has no integer wider than 8 bytes. *)
Definition int64 (z : Z) : bool := (- 2 ^ 63 <=? z) && (z <? 2 ^ 63).

Fixpoint bson_encodable (v : value) : bool :=
  match v with
  | VInt z => int64 z
  | VList l => forallb bson_encodable l
  | VDict d => forallb (fun kv => bson_encodable (snd kv)) d
  | _ => true
  end.

(** [insert_one]: the driver stamps a fresh [_id], encodes the document and
    the server appends it.  The driver's generator (timestamp, random part,
    counter) is stood for by [next_oid]; that successive identifiers are
    consecutive is a convention of the model, not a fact about the code. *)
Definition insert_one (c : string) (doc : dict) : M InsertOneResult :=
  fun s =>
    match server_fault s with
    | Some msg => (inl (PyMongoError msg), s)
    | None =>
        if bson_encodable (VDict doc) then
          let oid := next_oid s in
          let d := {| _id := oid; fields := doc |} in
          (inr {| inserted_id := oid |},
           with_collection s c (coll s c ++ [d])%list (oid + 1)%N)
        else
          (inl (OverflowError "MongoDB can only handle up to 8-byte ints"), s)
    end.

(** [find_one]: first match in natural order, or [None]. *)
Definition find_one (rt : Runtime) (c : string) (q : query)
  : M (option document) :=
  docs <- run_filter rt c q ;;
  ret (hd_error docs).

(** A cursor is lazy: [find], [skip] and [limit] only record the request. *)
Record Cursor := {
  cur_coll : string;
  cur_filter : query;
  cur_skip : Z;
  cur_limit : Z
}.

Definition find (c : string) (q : query) : Cursor :=
  {| cur_coll := c; cur_filter := q; cur_skip := 0; cur_limit := 0 |}.

Definition skip (cur : Cursor) (n : Z) : exn + Cursor :=
  if n <? 0 then inl (ValueError "skip must be >= 0")
  else inr {| cur_coll := cur_coll cur; cur_filter := cur_filter cur;
              cur_skip := n; cur_limit := cur_limit cur |}.

Definition limit (cur : Cursor) (n : Z) : exn + Cursor :=
  inr {| cur_coll := cur_coll cur; cur_filter := cur_filter cur;
         cur_skip := cur_skip cur; cur_limit := n |}.

(** A limit of 0 is no limit; a negative limit [-n] asks for one batch of at
    most [n] documents. *)
Definition apply_limit {A} (n : Z) (l : list A) : list A :=
  if n =? 0 then l else firstn (Z.to_nat (Z.abs n)) l.

(** Iterating the cursor to exhaustion: one round trip carrying the filter,
    the skip and the absolute value of the limit. *)
Definition fetch (rt : Runtime) (cur : Cursor) : M (list document) :=
  fun s =>
    match server_fault s with
    | Some msg => (inl (PyMongoError msg), s)
    | None =>
        if int64 (cur_skip cur) && int64 (Z.abs (cur_limit cur)) then
          (docs <- run_filter rt (cur_coll cur) (cur_filter cur) ;;
           ret (apply_limit (cur_limit cur)
                            (skipn (Z.to_nat (cur_skip cur)) docs))) s
        else
          (inl (OverflowError "MongoDB can only handle up to 8-byte ints"), s)
    end.

(** ** Attribute access on pymongo objects *)

Inductive pyobject :=
| Database (name : string)
| Collection (database name : string).

(** What [o.name] evaluates to: a member the class defines, or the object
    [__getattr__] falls back to. *)
Inductive attribute :=
| Member (owner : pyobject) (name : string)
| Fallback (o : pyobject).

Definition Database_members : list string :=
  ["name"; "client"; "codec_options"; "read_preference"; "write_concern";
   "read_concern"; "with_options"; "get_collection"; "create_collection";
   "aggregate"; "watch"; "command"; "cursor_command"; "list_collections";
   "list_collection_names"; "drop_collection"; "validate_collection";
   "dereference"].

Definition Collection_members : list string :=
  ["name"; "full_name"; "database"; "codec_options"; "read_preference";
   "write_concern"; "read_concern"; "with_options"; "bulk_write";
   "insert_one"; "insert_many"; "replace_one"; "update_one"; "update_many";
   "drop"; "delete_one"; "delete_many"; "find_one"; "find";
   "find_raw_batches"; "estimated_document_count"; "count_documents";
   "create_indexes"; "create_index"; "drop_indexes"; "drop_index";
   "list_indexes"; "index_information"; "list_search_indexes";
   "create_search_index"; "create_search_indexes"; "drop_search_index";
   "update_search_index"; "options"; "aggregate"; "aggregate_raw_batches";
   "watch"; "rename"; "distinct"; "find_one_and_delete";
   "find_one_and_replace"; "find_one_and_update"].

Definition mem_string (x : string) (l : list string) : bool :=
  existsb (String.eqb x) l.

Definition is_private (name : string) : bool :=
  match name with
  | String c _ => Ascii.eqb c "_"
  | "" => false
  end.

(** [Database.__getattr__] returns the collection of that name, and
    [Collection.__getattr__] the collection named [<self>.<name>]. *)
Definition getattr (o : pyobject) (attr : string) : exn + attribute :=
  match o with
  | Database d =>
      if mem_string attr Database_members then inr (Member o attr)
      else if is_private attr
      then inl (AttributeError
                  ("Database has no attribute " ++ repr_str attr
                   ++ ". To access the " ++ attr
                   ++ " collection, use database[" ++ repr_str attr ++ "]."))
      else inr (Fallback (Collection d attr))
  | Collection d c =>
      if mem_string attr Collection_members then inr (Member o attr)
      else if is_private attr
      then inl (AttributeError
                  ("Collection has no attribute " ++ repr_str attr
                   ++ ". To access the " ++ (c ++ "." ++ attr)
                   ++ " collection, use database["
                   ++ repr_str (c ++ "." ++ attr) ++ "]."))
      else inr (Fallback (Collection d (c ++ "." ++ attr)))
  end.

(** [a.attr] where [a] is itself the result of an attribute access; a
    method or property of the class is not a namespace. *)
Definition getattr_of (a : attribute) (attr : string) : exn + attribute :=
  match a with
  | Fallback o => getattr o attr
  | Member _ m =>
      inl (AttributeError (repr_str m ++ " has no attribute " ++ repr_str attr))
  end.

(** last component of a dotted collection name *)
Definition last_component (n : string) : string :=
  last (split_on "." n) "".

Definition has_dot (n : string) : bool := mem_char "." n.

(** [Collection.__call__] exists only to explain the misuse. *)
Definition Collection_call_error (n : string) : exn :=
  if has_dot n then
    TypeError ("'Collection' object is not callable. If you meant to call the '"
      ++ last_component n
      ++ "' method on a 'Collection' object it is failing because no such method exists.")
  else
    TypeError ("'Collection' object is not callable. If you meant to call the '"
      ++ n
      ++ "' method on a 'Database' object it is failing because no such method exists.").

Definition Database_call_error (n : string) : exn :=
  TypeError ("'Database' object is not callable. If you meant to call the '"
    ++ n
    ++ "' method on a 'MongoClient' object it is failing because no such method exists.").

(** The server's answer to a command such as [ping]. *)
Definition run_command (cmd : string) : M value :=
  fun s =>
    match server_fault s with
    | Some msg => (inl (PyMongoError msg), s)
    | None => (inr (VDict [("ok", VFloat (S754_finite false 4503599627370496 (-52)))]), s)
    end.

(** [a(cmd)] for an attribute [a] and one string argument.  [main.py] calls
    no member other than through this chain; such a call is made to fail. *)
Definition call_with_string (a : attribute) (cmd : string) : M value :=
  match a with
  | Member (Database _) "command" => run_command cmd
  | Member _ m => raise (TypeError (m ++ "() does not take a command name"))
  | Fallback (Collection _ n) => raise (Collection_call_error n)
  | Fallback (Database n) => raise (Database_call_error n)
  end.

(** [db = client.get_database("ecommerce")] *)
Definition db : pyobject := Database "ecommerce".

(** ** The builtin [sum] on floats *)

Fixpoint sum_neumaier (f_result c : float) (xs : list float) : float :=
  match xs with
  | [] =>
      if negb (is_zero c) && is_finite c then fadd f_result c else f_result
  | x :: xs' =>
      let t := fadd f_result x in
      let c' :=
        if fge (fabs f_result) (fabs x)
        then fadd c (fadd (fsub f_result t) x)
        else fadd c (fadd (fsub x t) f_result) in
      sum_neumaier t c' xs'
  end.

(** [sum(xs)]: starts from the int [0]; the first float turns the running
    total into a float. *)
Definition py_sum (rt : Runtime) (xs : list float) : value :=
  match xs with
  | [] => VInt 0
  | x :: xs' =>
      let first := fadd fzero x in
      VFloat (if compensated_sum rt
              then sum_neumaier first fzero xs'
              else fold_left fadd xs' first)
  end.

(** ** Pydantic models *)

Record ProductSize := { size : string; quantity : Z }.

Record ProductRequest := {
  name : string;
  price : float;
  description : option string;
  sizes : list ProductSize
}.

Record OrderItem := {
  product_id : string;
  bought_quantity : Z;
  total_amount : float
}.

Record OrderRequest := {
  user_id : string;
  items : list OrderItem;
  user_address : string
}.

(** [.dict()] *)
Definition ProductSize_dict (ps : ProductSize) : dict :=
  [("size", VStr (size ps)); ("quantity", VInt (quantity ps))].

Definition ProductRequest_dict (p : ProductRequest) : dict :=
  [("name", VStr (name p));
   ("price", VFloat (price p));
   ("description", match description p with
                   | Some d => VStr d
                   | None => VNone
                   end);
   ("sizes", VList (map (fun ps => VDict (ProductSize_dict ps)) (sizes p)))].

Definition OrderItem_dict (it : OrderItem) : dict :=
  [("product_id", VStr (product_id it));
   ("bought_quantity", VInt (bought_quantity it));
   ("total_amount", VFloat (total_amount it))].

Definition OrderRequest_dict (o : OrderRequest) : dict :=
  [("user_id", VStr (user_id o));
   ("items", VList (map (fun it => VDict (OrderItem_dict it)) (items o)));
   ("user_address", VStr (user_address o))].

(** ** HTTP responses *)

Record response := { status_code : Z; content : value }.

(** what FastAPI sends for a raised [HTTPException] *)
Definition error_response (code : Z) (detail : string) : response :=
  {| status_code := code; content := VDict [("detail", VStr detail)] |}.

(** The JSON renderer refuses NaN and the infinities, and objects it has no
    encoding for. *)
Fixpoint json_compliant (v : value) : bool :=
  match v with
  | VFloat f => is_finite f
  | VObjectId _ => false
  | VList l => forallb json_compliant l
  | VDict d => forallb (fun kv => json_compliant (snd kv)) d
  | _ => true
  end.

(** What is sent when a handler returns [v]: the declared status with [v]
    rendered as JSON, or the framework's own 500 when rendering fails. *)
Definition respond (code : Z) (v : value) : response :=
  if json_compliant v then {| status_code := code; content := v |}
  else {| status_code := 500; content := VStr "Internal Server Error" |}.

(** ** Helper functions *)

Definition getitem (d : dict) (k : string) : exn + value :=
  match dict_get d k with
  | Some v => inr v
  | None => inl (KeyError k)
  end.

Definition product_helper (product : document) : exn + value :=
  match getitem (fields product) "name" with
  | inl e => inl e
  | inr name_ =>
  match getitem (fields product) "price" with
  | inl e => inl e
  | inr price_ =>
  match getitem (fields product) "description" with
  | inl e => inl e
  | inr description_ =>
  match getitem (fields product) "sizes" with
  | inl e => inl e
  | inr sizes_ =>
      inr (VDict [("product_id", VStr (str_ObjectId (_id product)));
                  ("name", name_);
                  ("price", price_);
                  ("description", description_);
                  ("sizes", sizes_)])
  end end end end.

Definition order_helper (order : document) : exn + value :=
  match getitem (fields order) "user_id" with
  | inl e => inl e
  | inr user_id_ =>
  match getitem (fields order) "items" with
  | inl e => inl e
  | inr items_ =>
  match getitem (fields order) "user_address" with
  | inl e => inl e
  | inr user_address_ =>
  match getitem (fields order) "timestamp" with
  | inl e => inl e
  | inr timestamp_ =>
  match getitem (fields order) "total_amount" with
  | inl e => inl e
  | inr total_amount_ =>
      inr (VDict [("order_id", VStr (str_ObjectId (_id order)));
                  ("user_id", user_id_);
                  ("items", items_);
                  ("user_address", user_address_);
                  ("timestamp", timestamp_);
                  ("total_amount", total_amount_)])
  end end end end end.

(** [for x in cursor: out.append(helper(x))] *)
Fixpoint map_helper (helper : document -> exn + value) (docs : list document)
  : exn + list value :=
  match docs with
  | [] => inr []
  | d :: docs' =>
      match helper d with
      | inl e => inl e
      | inr v =>
          match map_helper helper docs' with
          | inl e => inl e
          | inr vs => inr (v :: vs)
          end
      end
  end.

(** ** API endpoints *)

Section Endpoints.

Variable rt : Runtime.

(** POST /products; [now] is [datetime.utcnow()]. *)
Definition create_product_try (product : ProductRequest) (now : Z) : M value :=
  let product_dict := ProductRequest_dict product in
  let product_dict := dict_set product_dict "created_at" (VDatetime now) in
  result <- insert_one "products" product_dict ;;
  if ObjectId_truthy (inserted_id result)
  then ret (VDict [("product_id", VStr (str_ObjectId (inserted_id result)))])
  else raise (HTTPException 500 "Failed to create product").

Definition create_product (s : Store) (product : ProductRequest) (now : Z)
  : Store * response :=
  match create_product_try product now s with
  | (inr v, s') => (s', respond 201 v)
  | (inl e, s') => (s', error_response 500 (str_exn e))
  end.

(** GET /products: the filter document built from the query parameters
    ([if name:] and [if size:] test truthiness). *)
Definition query_filter (name_ size_ : option string) : query :=
  let query_filter : query := [] in
  let query_filter :=
    if truthy_opt_str name_
    then assoc_set query_filter "name" (CRegex (unwrap name_) "i")
    else query_filter in
  let query_filter :=
    if truthy_opt_str size_
    then assoc_set query_filter "sizes.size" (CEqStr (unwrap size_))
    else query_filter in
  query_filter.

Definition list_products_try (name_ size_ : option string) (limit_ offset : Z)
  : M value :=
  cursor <- lift (skip (find "products" (query_filter name_ size_)) offset) ;;
  cursor <- lift (limit cursor limit_) ;;
  docs <- fetch rt cursor ;;
  products_ <- lift (map_helper product_helper docs) ;;
  ret (VDict [("products", VList products_)]).

Definition list_products (s : Store) (name_ size_ : option string)
  (limit_ offset : Z) : response :=
  match list_products_try name_ size_ limit_ offset s with
  | (inr v, _) => respond 200 v
  | (inl e, _) => error_response 500 (str_exn e)
  end.

(** POST /orders: the existence loop over [order.items] *)
Fixpoint check_items (its : list OrderItem) : M unit :=
  match its with
  | [] => ret tt
  | item :: rest =>
      oid <- lift (ObjectId_of_str (product_id item)) ;;
      product <- find_one rt "products" [("_id", CEqOid oid)] ;;
      match product with
      | None =>
          raise (HTTPException 400
                   ("Product " ++ product_id item ++ " not found"))
      | Some _ => check_items rest
      end
  end.

Definition create_order_try (order : OrderRequest) (now : Z) : M value :=
  check_items (items order) ;;;
  let total_amount_ := py_sum rt (map total_amount (items order)) in
  let order_dict := OrderRequest_dict order in
  let order_dict := dict_set order_dict "timestamp" (VDatetime now) in
  let order_dict := dict_set order_dict "total_amount" total_amount_ in
  result <- insert_one "orders" order_dict ;;
  if ObjectId_truthy (inserted_id result)
  then ret (VDict [("id", VStr (str_ObjectId (inserted_id result)))])
  else raise (HTTPException 500 "Failed to create order").

(** [except HTTPException: raise] lets the exception through unchanged;
    every other exception becomes a 500 carrying [str(e)]. *)
Definition create_order (s : Store) (order : OrderRequest) (now : Z)
  : Store * response :=
  match create_order_try order now s with
  | (inr v, s') => (s', respond 201 v)
  | (inl (HTTPException code detail), s') => (s', error_response code detail)
  | (inl e, s') => (s', error_response 500 (str_exn e))
  end.

(** GET /orders/{user_id} *)
Definition get_user_orders_try (user_id_ : string) (limit_ offset : Z)
  : M value :=
  cursor <- lift (skip (find "orders" [("user_id", CEqStr user_id_)]) offset) ;;
  cursor <- lift (limit cursor limit_) ;;
  docs <- fetch rt cursor ;;
  orders_ <- lift (map_helper order_helper docs) ;;
  ret (VDict [("orders", VList orders_)]).

Definition get_user_orders (s : Store) (user_id_ : string) (limit_ offset : Z)
  : response :=
  match get_user_orders_try user_id_ limit_ offset s with
  | (inr v, _) => respond 200 v
  | (inl e, _) => error_response 500 (str_exn e)
  end.

(** GET / *)
Definition root : response :=
  respond 200 (VDict [("message", VStr "Ecommerce Backend API is running")]).

(** GET /health: [db.admin.command('ping')] inside a [try] whose handler
    returns a body instead of raising. *)
Definition health_check_try : M value :=
  admin <- lift (getattr db "admin") ;;
  command <- lift (getattr_of admin "command") ;;
  call_with_string command "ping" ;;;
  ret (VDict [("status", VStr "healthy"); ("database", VStr "connected")]).

Definition health_check (s : Store) : response :=
  match health_check_try s with
  | (inr v, _) => respond 200 v
  | (inl e, _) =>
      respond 200 (VDict [("status", VStr "unhealthy");
                          ("database", VStr "disconnected");
                          ("error", VStr (str_exn e))])
  end.

End Endpoints.

(** ** A reference regular-expression engine

    The server's engine is a parameter of the model.  This instance covers
    patterns over ASCII built from literal characters and [.], with no
    option or with option [i]; it rejects everything else. *)

Module RefRegex.

Inductive atom := Lit (c : ascii) | AnyChar.

Definition metachars : string :=
  String backslash "^$.[]|()?*+{}".

Definition is_meta (c : ascii) : bool := mem_char c metachars.

Definition is_ascii (c : ascii) : bool := (N_of_ascii c <? 128)%N.

Fixpoint parse (p : string) : option (list atom) :=
  match p with
  | "" => Some []
  | String c p' =>
      if Ascii.eqb c "." then option_map (cons AnyChar) (parse p')
      else if is_meta c || negb (is_ascii c) then None
      else option_map (cons (Lit c)) (parse p')
  end.

(** ASCII case folding *)
Definition lower (c : ascii) : ascii :=
  let n := N_of_ascii c in
  if ((65 <=? n) && (n <=? 90))%N then ascii_of_N (n + 32) else c.

Definition newline : ascii := ascii_of_nat 10.

Definition atom_match (caseless : bool) (a : atom) (c : ascii) : bool :=
  match a with
  | Lit x => if caseless then Ascii.eqb (lower x) (lower c) else Ascii.eqb x c
  | AnyChar => negb (Ascii.eqb c newline)
  end.

Fixpoint match_here (caseless : bool) (p : list atom) (s : string) : bool :=
  match p, s with
  | [], _ => true
  | a :: p', String c s' => atom_match caseless a c && match_here caseless p' s'
  | _ :: _, "" => false
  end.

Fixpoint search (caseless : bool) (p : list atom) (s : string) : bool :=
  match_here caseless p s
  || match s with
     | "" => false
     | String _ s' => search caseless p s'
     end.

Definition compile (pattern options : string) : string + (string -> bool) :=
  match parse pattern with
  | None => inl "Regular expression is invalid"
  | Some p =>
      if String.eqb options "i" then inr (search true p)
      else if String.eqb options "" then inr (search false p)
      else inl "invalid flag in regex options"
  end.

End RefRegex.

Definition reference_runtime (compensated : bool) : Runtime :=
  {| regex_compile := RefRegex.compile; compensated_sum := compensated |}.

(** ** Substring containment, as the specification words it *)

Fixpoint prefix_ci (p s : string) : bool :=
  match p, s with
  | "", _ => true
  | String a p', String b s' =>
      Ascii.eqb (RefRegex.lower a) (RefRegex.lower b) && prefix_ci p' s'
  | String _ _, "" => false
  end.

(** [p] occurs in [s] up to ASCII case *)
Fixpoint contains_ci (p s : string) : bool :=
  prefix_ci p s
  || match s with
     | "" => false
     | String _ s' => contains_ci p s'
     end.

(** ** Typed views of what the endpoints store and return *)

Record stored_product := {
  sp_id : ObjectId;
  sp_request : ProductRequest;
  sp_created_at : Z
}.

(** the document [create_product] inserts *)
Definition product_doc (r : stored_product) : document :=
  {| _id := sp_id r;
     fields := dict_set (ProductRequest_dict (sp_request r))
                        "created_at" (VDatetime (sp_created_at r)) |}.

(** the record [product_helper] builds from it *)
Definition product_view (r : stored_product) : value :=
  VDict [("product_id", VStr (str_ObjectId (sp_id r)));
         ("name", VStr (name (sp_request r)));
         ("price", VFloat (price (sp_request r)));
         ("description", match description (sp_request r) with
                         | Some d => VStr d
                         | None => VNone
                         end);
         ("sizes", VList (map (fun ps => VDict (ProductSize_dict ps))
                              (sizes (sp_request r))))].

Record stored_order := {
  so_id : ObjectId;
  so_request : OrderRequest;
  so_timestamp : Z;
  so_total_amount : value
}.

(** the document [create_order] inserts *)
Definition order_doc (r : stored_order) : document :=
  {| _id := so_id r;
     fields := dict_set
                 (dict_set (OrderRequest_dict (so_request r))
                           "timestamp" (VDatetime (so_timestamp r)))
                 "total_amount" (so_total_amount r) |}.

Definition order_view (r : stored_order) : value :=
  VDict [("order_id", VStr (str_ObjectId (so_id r)));
         ("user_id", VStr (user_id (so_request r)));
         ("items", VList (map (fun it => VDict (OrderItem_dict it))
                              (items (so_request r))));
         ("user_address", VStr (user_address (so_request r)));
         ("timestamp", VDatetime (so_timestamp r));
         ("total_amount", so_total_amount r)].

(** skip/limit as the cursor applies them *)
Definition paginate {A} (limit_ offset : Z) (l : list A) : list A :=
  apply_limit limit_ (skipn (Z.to_nat offset) l).

(** a store with no document in it *)
Definition empty_store : Store :=
  {| server_fault := None; collections := []; next_oid := 0%N |}.

(** ** Vocabulary of the statements *)

(** the test [{"_id": oid}] performs on a document *)
Definition has_id (oid : ObjectId) (d : document) : bool := N.eqb (_id d) oid.

(** The product an item names is in the catalogue. *)
Definition product_exists (s : Store) (pid : string) : Prop :=
  exists oid d,
    ObjectId_of_str pid = inr oid /\ In d (products s) /\ _id d = oid.

(** the order [create_order] persists for a request it accepts *)
Definition new_order (rt : Runtime) (s : Store) (order : OrderRequest)
  (now : Z) : stored_order :=
  {| so_id := next_oid s;
     so_request := order;
     so_timestamp := now;
     so_total_amount := py_sum rt (map total_amount (items order)) |}.

(** The response to an exception leaving the [try] block of [create_order]. *)
Definition order_error_response (e : exn) : response :=
  match e with
  | HTTPException code detail => error_response code detail
  | _ => error_response 500 (str_exn e)
  end.

(** The exact rational sum of finite floats. *)
Fixpoint exact_sum (xs : list float) : option Q :=
  match xs with
  | [] => Some 0%Q
  | x :: xs' =>
      match float_value x, exact_sum xs' with
      | Some a, Some b => Some (a + b)%Q
      | _, _ => None
      end
  end.

(** the number a stored int or finite float stands for *)
Definition number_value (v : value) : option Q :=
  match v with
  | VInt z => Some (inject_Z z)
  | VFloat f => float_value f
  | _ => None
  end.

(** the [total_amount] of the order inserted last *)
Definition last_total_amount (s : Store) : option value :=
  match last (map Some (orders s)) None with
  | Some d => dict_get (fields d) "total_amount"
  | None => None
  end.

(** the product [create_product] persists for a request it accepts *)
Definition new_product (s : Store) (product : ProductRequest) (now : Z)
  : stored_product :=
  {| sp_id := next_oid s; sp_request := product; sp_created_at := now |}.

(** The name filter of a ListProducts call once the server has compiled it:
    no constraint when [name] is falsy. *)
Definition name_matcher (rt : Runtime) (name_ : option string)
  : string + (string -> bool) :=
  if truthy_opt_str name_ then regex_compile rt (unwrap name_) "i"
  else inr (fun _ => true).

(** the size filter: no constraint when [size] is falsy *)
Definition size_selected (size_ : option string) (p : ProductRequest) : bool :=
  if truthy_opt_str size_
  then existsb (fun ps => String.eqb (size ps) (unwrap size_)) (sizes p)
  else true.

(** both filters, ANDed *)
Definition product_selected (m : string -> bool) (size_ : option string)
  (r : stored_product) : bool :=
  m (name (sp_request r)) && size_selected size_ (sp_request r).

(** exact match on [user_id] *)
Definition order_selected (user_id_ : string) (r : stored_order) : bool :=
  String.eqb (user_id (so_request r)) user_id_.

(** patterns made of ASCII characters none of which is a metacharacter *)
Fixpoint no_meta (p : string) : bool :=
  match p with
  | "" => true
  | String c p' =>
      negb (RefRegex.is_meta c) && RefRegex.is_ascii c && no_meta p'
  end.

Fixpoint literals (p : string) : list RefRegex.atom :=
  match p with
  | "" => []
  | String c p' => RefRegex.Lit c :: literals p'
  end.

(** the stored total is a number other than the exact sum of the amounts *)
Definition total_inexact (rt : Runtime) (s : Store) (order : OrderRequest)
  (now : Z) : Prop :=
  exists stored exact,
    option_map number_value
      (last_total_amount (fst (create_order rt s order now)))
      = Some (Some stored)
    /\ exact_sum (map total_amount (items order)) = Some exact
    /\ ~ (stored == exact)%Q.

(** Every document of the two collections is one the endpoints wrote. *)
Definition typed_store (s : Store) : Prop :=
  (exists rs, products s = map product_doc rs)
  /\ (exists os, orders s = map order_doc os).

(** the keys of a record [product_helper] builds *)
Definition view_keys : list string :=
  ["product_id"; "name"; "price"; "description"; "sizes"].

(** ** Example data *)

Module Examples.

(** 19.99, 0.1, 0.2 and -1.0 as binary64 *)
Definition f19_99 : float := S754_finite false 5626684784446013 (-48).
Definition f0_1 : float := S754_finite false 7205759403792794 (-56).
Definition f0_2 : float := S754_finite false 7205759403792794 (-55).
Definition fminus1 : float := S754_finite true 4503599627370496 (-52).

Definition rt0 : Runtime := reference_runtime false.
Definition rt1 : Runtime := reference_runtime true.

Definition tee : ProductRequest :=
  {| name := "Shirt"; price := f19_99; description := None;
     sizes := [{| size := "M"; quantity := 5 |}] |}.

Definition refund : ProductRequest :=
  {| name := "Refund"; price := fminus1; description := Some "credit note";
     sizes := [] |}.

Definition tee_record : stored_product :=
  {| sp_id := 0%N; sp_request := tee; sp_created_at := 1000 |}.

(** the catalogue after one [create_product] on an empty store *)
Definition shop : Store :=
  {| server_fault := None;
     collections := [("products", [product_doc tee_record])];
     next_oid := 1%N |}.

Definition id0 : string := "000000000000000000000000".
Definition id1 : string := "000000000000000000000001".

Definition item (pid : string) (amount : float) : OrderItem :=
  {| product_id := pid; bought_quantity := 1; total_amount := amount |}.

Definition order_of (its : list OrderItem) : OrderRequest :=
  {| user_id := "u1"; items := its; user_address := "1 Main St" |}.

End Examples.

(** the same catalogue with one order of user "u1" *)
Definition shop_order_record : stored_order :=
  {| so_id := 1%N;
     so_request := Examples.order_of [Examples.item Examples.id0 Examples.f19_99];
     so_timestamp := 2000;
     so_total_amount := VFloat Examples.f19_99 |}.

Definition shop_with_order : Store :=
  {| server_fault := None;
     collections := [("products", [product_doc Examples.tee_record]);
                     ("orders", [order_doc shop_order_record])];
     next_oid := 2%N |}.

(** ** Histories of requests *)

(** What happens to the store between two reads: a write request is served,
    or the deployment goes down or comes back. *)
Inductive event :=
| PostProduct (product : ProductRequest) (now : Z)
| PostOrder (order : OrderRequest) (now : Z)
| Outage (msg : string)
| Recovery.

Definition set_fault (s : Store) (f : option string) : Store :=
  {| server_fault := f; collections := collections s; next_oid := next_oid s |}.

Definition step (rt : Runtime) (s : Store) (e : event) : Store :=
  match e with
  | PostProduct product now => fst (create_product s product now)
  | PostOrder order now => fst (create_order rt s order now)
  | Outage msg => set_fault s (Some msg)
  | Recovery => set_fault s None
  end.

Definition run (rt : Runtime) (es : list event) (s : Store) : Store :=
  fold_left (step rt) es s.

(** ** Identifier texts in requests *)

(** ASCII whitespace, which [bytes.fromhex] skips *)
Definition is_space (c : ascii) : bool :=
  let n := N_of_ascii c in
  ((9 <=? n) && (n <=? 13) || (n =? 32))%N.

(** a text without ASCII whitespace: on these [ObjectId_of_str] is [ObjectId] *)
Fixpoint no_blank (s : string) : bool :=
  match s with
  | "" => true
  | String c s' => negb (is_space c) && no_blank s'
  end.

(** a text of ASCII characters: on these [repr_str] is [repr] *)
Fixpoint all_ascii (s : string) : bool :=
  match s with
  | "" => true
  | String c s' => RefRegex.is_ascii c && all_ascii s'
  end.

(** the keys [product_helper] reads with [product[...]] *)
Definition product_keys : list string :=
  ["name"; "price"; "description"; "sizes"].

(** ASCII upper case *)
Definition upper (c : ascii) : ascii :=
  let n := N_of_ascii c in
  if ((97 <=? n) && (n <=? 122))%N then ascii_of_N (n - 32) else c.

Fixpoint to_upper (s : string) : string :=
  match s with
  | "" => ""
  | String c s' => String (upper c) (to_upper s')
  end.

Definition upper_item (it : OrderItem) : OrderItem :=
  {| product_id := to_upper (product_id it);
     bought_quantity := bought_quantity it;
     total_amount := total_amount it |}.

(** the records of a listing response; nothing for an error response *)
Definition listed (key : string) (r : response) : list value :=
  match content r with
  | VDict [(k, VList l)] => if String.eqb k key then l else []
  | _ => []
  end.

(** the order with other items *)
Definition with_items (order : OrderRequest) (its : list OrderItem)
  : OrderRequest :=
  {| user_id := user_id order; items := its;
     user_address := user_address order |}.

(** ** Further example stores *)

Definition cap : ProductRequest :=
  {| name := "Cap"; price := Examples.f0_1; description := Some "one size";
     sizes := [] |}.

Definition three_records : list stored_product :=
  [Examples.tee_record;
   {| sp_id := 1%N; sp_request := Examples.refund; sp_created_at := 1001 |};
   {| sp_id := 2%N; sp_request := cap; sp_created_at := 1002 |}].

(** a catalogue of three products *)
Definition shop3 : Store :=
  {| server_fault := None;
     collections := [("products", map product_doc three_records)];
     next_oid := 3%N |}.

(** a catalogue holding a document written by other means, without
    [description] *)
Definition legacy_shop : Store :=
  {| server_fault := None;
     collections :=
       [("products",
         [product_doc Examples.tee_record;
          {| _id := 1%N;
             fields := [("name", VStr "Mug"); ("price", VFloat Examples.f0_1);
                        ("sizes", VList [])] |}])];
     next_oid := 2%N |}.

(** a catalogue whose only product has identifier text ending in [a] *)
Definition shop_a : Store :=
  {| server_fault := None;
     collections :=
       [("products",
         [product_doc {| sp_id := 10%N; sp_request := Examples.tee;
                         sp_created_at := 1000 |}])];
     next_oid := 11%N |}.

(** the same catalogue as [Examples.shop], unreachable *)
Definition shop_down : Store := set_fault Examples.shop (Some "connection refused").

(** * Properties *)

(** ** Association lists and collections *)

Lemma assoc_get_set_same {A} (l : list (string * A)) k v :
  assoc_get (assoc_set l k v) k = Some v.
Proof.
  induction l as [|[k' v'] l IH]; simpl.
  - now rewrite String.eqb_refl.
  - destruct (String.eqb k' k) eqn:E; simpl; rewrite E; auto.
Qed.

Lemma assoc_get_set_other {A} (l : list (string * A)) k k' v :
  k' <> k -> assoc_get (assoc_set l k v) k' = assoc_get l k'.
Proof.
  intros Hne. induction l as [|[k0 v0] l IH]; simpl.
  - destruct (String.eqb k k') eqn:E; auto.
    apply String.eqb_eq in E. congruence.
  - destruct (String.eqb k0 k) eqn:E; simpl.
    + apply String.eqb_eq in E. subst k0.
      destruct (String.eqb k k') eqn:E'; auto.
      apply String.eqb_eq in E'. congruence.
    + now rewrite IH.
Qed.

Lemma coll_with_collection_same s c docs n :
  coll (with_collection s c docs n) c = docs.
Proof. unfold coll, with_collection; simpl. now rewrite assoc_get_set_same. Qed.

Lemma coll_with_collection_other s c c' docs n :
  c' <> c -> coll (with_collection s c docs n) c' = coll s c'.
Proof.
  intros H. unfold coll, with_collection; simpl.
  now rewrite assoc_get_set_other.
Qed.

(** What a successful [insert_one] does to the store. *)
Lemma insert_one_ok c doc s :
  server_fault s = None ->
  bson_encodable (VDict doc) = true ->
  insert_one c doc s =
    (inr {| inserted_id := next_oid s |},
     with_collection s c (coll s c ++ [{| _id := next_oid s; fields := doc |}])
                     (next_oid s + 1)%N).
Proof.
  intros Hf Hb. unfold insert_one. rewrite Hf, Hb. reflexivity.
Qed.

(** A failed [insert_one] leaves the store alone. *)
Lemma insert_one_error c doc s e s' :
  insert_one c doc s = (inl e, s') -> s' = s.
Proof.
  unfold insert_one.
  destruct (server_fault s); [intros H; now inversion H|].
  destruct (bson_encodable (VDict doc)); intros H; now inversion H.
Qed.

Create Rewrite HintDb store.
#[local] Hint Rewrite coll_with_collection_same : store.
#[local] Hint Rewrite coll_with_collection_other using discriminate : store.

(** ** Lookups by identifier *)

(** The only exception [ObjectId] raises on a string is [InvalidId]. *)
Lemma ObjectId_of_str_error pid e :
  ObjectId_of_str pid = inl e ->
  e = InvalidId (repr_str pid ++
        " is not a valid ObjectId, it must be a 12-byte input or a 24-character hex string").
Proof.
  unfold ObjectId_of_str.
  destruct (String.length pid =? 24)%nat; [destruct (Hex.of_hex pid)|];
    intros H; inversion H; reflexivity.
Qed.

Lemma doc_matches_by_id rt oid d :
  compile_query rt [("_id", CEqOid oid)] =
    inr [(["_id"], fun v => match v with
                            | VObjectId o' => N.eqb o' oid
                            | _ => false
                            end)]
  /\ doc_matches [(["_id"], fun v => match v with
                                     | VObjectId o' => N.eqb o' oid
                                     | _ => false
                                     end)] d = has_id oid d.
Proof.
  split; [reflexivity|].
  unfold doc_matches, has_id, leaf_test; simpl.
  now rewrite !orb_false_r, andb_true_r.
Qed.

Lemma find_one_by_id rt oid s :
  server_fault s = None ->
  find_one rt "products" [("_id", CEqOid oid)] s =
    (inr (hd_error (filter (has_id oid) (products s))), s).
Proof.
  intros Hf. unfold find_one, bind, run_filter. rewrite Hf.
  destruct (doc_matches_by_id rt oid {| _id := 0%N; fields := [] |}) as [-> _].
  unfold ret, products. f_equal. f_equal. f_equal.
  apply filter_ext. intros d. apply doc_matches_by_id. exact rt.
Qed.

Lemma hd_error_filter_some {A} (f : A -> bool) l x :
  In x l -> f x = true -> exists y, hd_error (filter f l) = Some y.
Proof.
  induction l as [|a l IH]; simpl; [tauto|].
  intros [->|Hin] Hx.
  - rewrite Hx. simpl. eauto.
  - destruct (f a); simpl; eauto.
Qed.

Lemma hd_error_filter_In {A} (f : A -> bool) l x :
  hd_error (filter f l) = Some x -> In x l /\ f x = true.
Proof.
  intros H. apply filter_In.
  destruct (filter f l); inversion H; now left.
Qed.

(** A document found by identifier witnesses that the product exists. *)
Lemma found_product_exists s pid oid d :
  ObjectId_of_str pid = inr oid ->
  hd_error (filter (has_id oid) (products s)) = Some d ->
  product_exists s pid.
Proof.
  intros Hoid Hd. apply hd_error_filter_In in Hd. destruct Hd as [Hin Hh].
  exists oid, d. repeat split; auto. now apply N.eqb_eq in Hh.
Qed.

(** ** The existence loop of [create_order] *)

(** The loop never writes. *)
Lemma check_items_store rt its s :
  snd (check_items rt its s) = s.
Proof.
  induction its as [|item rest IH]; simpl; [reflexivity|].
  unfold bind, lift.
  destruct (ObjectId_of_str (product_id item)) as [e|oid]; [reflexivity|].
  unfold find_one, bind, run_filter.
  destruct (server_fault s); [reflexivity|].
  destruct (compile_query rt [("_id", CEqOid oid)]); [reflexivity|].
  unfold ret.
  destruct (hd_error _); [apply IH | reflexivity].
Qed.

(** It passes when every item names an existing product. *)
Lemma check_items_all_exist rt its s :
  server_fault s = None ->
  Forall (fun it => product_exists s (product_id it)) its ->
  check_items rt its s = (inr tt, s).
Proof.
  intros Hf. induction 1 as [|item rest Hex _ IH]; simpl; [reflexivity|].
  destruct Hex as (oid & d & Hoid & Hin & Hid).
  unfold bind at 1, lift. rewrite Hoid.
  unfold bind. rewrite (find_one_by_id rt oid s Hf).
  destruct (hd_error_filter_some (has_id oid) (products s) d Hin) as [y ->].
  - unfold has_id. rewrite Hid. apply N.eqb_refl.
  - exact IH.
Qed.

(** It stops at the first item whose well-formed identifier is not in the
    catalogue, raising the 400 that names it. *)
Lemma check_items_first_missing rt pre item post oid s :
  server_fault s = None ->
  Forall (fun it => product_exists s (product_id it)) pre ->
  ObjectId_of_str (product_id item) = inr oid ->
  ~ product_exists s (product_id item) ->
  check_items rt (pre ++ item :: post) s =
    (inl (HTTPException 400 ("Product " ++ product_id item ++ " not found")), s).
Proof.
  intros Hf Hpre Hoid Hmiss.
  induction Hpre as [|it rest Hex _ IH]; simpl.
  - unfold bind at 1, lift. rewrite Hoid.
    unfold bind. rewrite (find_one_by_id rt oid s Hf).
    destruct (hd_error (filter (has_id oid) (products s))) as [d|] eqn:E;
      [|reflexivity].
    exfalso. apply Hmiss. exact (found_product_exists s _ oid d Hoid E).
  - destruct Hex as (oid' & d & Hoid' & Hin & Hid).
    unfold bind at 1, lift. rewrite Hoid'.
    unfold bind. rewrite (find_one_by_id rt oid' s Hf).
    destruct (hd_error_filter_some (has_id oid') (products s) d Hin) as [y ->].
    + unfold has_id. rewrite Hid. apply N.eqb_refl.
    + exact IH.
Qed.

(** The exception the loop raises when an item names no existing product is
    the 400 of the [not found] branch or an exception from outside the
    handler's own vocabulary. *)
Lemma check_items_some_missing_kind rt its s :
  Exists (fun it => ~ product_exists s (product_id it)) its ->
  exists e, check_items rt its s = (inl e, s)
            /\ match e with
               | HTTPException c _ => c = 400
               | _ => True
               end.
Proof.
  induction its as [|item rest IH]; intros Hex; [inversion Hex|].
  cbn [check_items]. unfold bind at 1, lift.
  destruct (ObjectId_of_str (product_id item)) as [e|oid] eqn:Hoid.
  { exists e. split; [reflexivity|].
    now rewrite (ObjectId_of_str_error _ _ Hoid). }
  unfold bind.
  destruct (server_fault s) as [msg|] eqn:Hf.
  { unfold find_one, bind, run_filter. rewrite Hf.
    exists (PyMongoError msg). split; [reflexivity | exact I]. }
  rewrite (find_one_by_id rt oid s Hf).
  destruct (hd_error (filter (has_id oid) (products s))) as [d|] eqn:E.
  - apply IH. inversion Hex as [? ? Hhere|]; subst; auto.
    exfalso. apply Hhere. exact (found_product_exists s _ oid d Hoid E).
  - eexists. split; [reflexivity | reflexivity].
Qed.

(** ** Order documents *)

Lemma items_encodable (its : list OrderItem) :
  Forall (fun it => int64 (bought_quantity it) = true) its ->
  forallb bson_encodable (map (fun it => VDict (OrderItem_dict it)) its) = true.
Proof.
  induction 1 as [|it rest Hq _ IH]; simpl; [reflexivity|].
  rewrite Hq, IH. reflexivity.
Qed.

Lemma py_sum_encodable rt xs : bson_encodable (py_sum rt xs) = true.
Proof. destruct xs; reflexivity. Qed.

(** The accepting path of [create_order]. *)
Lemma create_order_ok rt s order now :
  server_fault s = None ->
  Forall (fun it => product_exists s (product_id it)) (items order) ->
  Forall (fun it => int64 (bought_quantity it) = true) (items order) ->
  create_order rt s order now =
    (with_collection s "orders"
       (orders s ++ [order_doc (new_order rt s order now)])
       (next_oid s + 1)%N,
     {| status_code := 201;
        content := VDict [("id", VStr (str_ObjectId (next_oid s)))] |}).
Proof.
  intros Hf Hex Hq.
  unfold create_order, create_order_try.
  unfold bind at 1. rewrite (check_items_all_exist rt _ s Hf Hex).
  unfold bind. rewrite insert_one_ok; [reflexivity | exact Hf |].
  cbn [dict_set OrderRequest_dict String.eqb Ascii.eqb Bool.eqb].
  cbn [bson_encodable forallb snd andb].
  rewrite (items_encodable _ Hq), py_sum_encodable. reflexivity.
Qed.

Lemma create_order_check_fails rt s order now e :
  check_items rt (items order) s = (inl e, s) ->
  create_order rt s order now = (s, order_error_response e).
Proof.
  intros He. unfold create_order, create_order_try, bind. rewrite He.
  destruct e; reflexivity.
Qed.

(** ** CreateOrder *)

Lemma check_items_first_malformed rt pre item post s :
  server_fault s = None ->
  Forall (fun it => product_exists s (product_id it)) pre ->
  (forall oid, ObjectId_of_str (product_id item) <> inr oid) ->
  check_items rt (pre ++ item :: post) s =
    (inl (InvalidId (repr_str (product_id item) ++
       " is not a valid ObjectId, it must be a 12-byte input or a 24-character hex string")),
     s).
Proof.
  intros Hf Hpre Hbad.
  induction Hpre as [|it rest Hex _ IH]; cbn [app check_items].
  - unfold bind at 1, lift.
    destruct (ObjectId_of_str (product_id item)) as [e|oid] eqn:Hoid.
    + now rewrite (ObjectId_of_str_error _ _ Hoid).
    + now destruct (Hbad oid).
  - destruct Hex as (oid' & d & Hoid' & Hin & Hid).
    unfold bind at 1, lift. rewrite Hoid'.
    unfold bind. rewrite (find_one_by_id rt oid' s Hf).
    destruct (hd_error_filter_some (has_id oid') (products s) d Hin) as [y ->].
    + unfold has_id. rewrite Hid. apply N.eqb_refl.
    + exact IH.
Qed.

Lemma shop_has_id0 : product_exists Examples.shop Examples.id0.
Proof.
  exists 0%N, (product_doc Examples.tee_record).
  repeat split. now left.
Qed.

Lemma shop_lacks_id1 : ~ product_exists Examples.shop Examples.id1.
Proof.
  intros (oid & d & Hoid & Hin & Hid).
  vm_compute in Hoid. injection Hoid as Hoid. rewrite <- Hoid in Hid.
  destruct Hin as [<-|[]]. discriminate Hid.
Qed.

Lemma xyz_malformed : forall oid, ObjectId_of_str "xyz" <> inr oid.
Proof. intros oid H. vm_compute in H. discriminate H. Qed.

(** C1: the request whose first item carries the malformed identifier "xyz"
    and whose second names an absent product writes nothing, but it is
    answered with the internal-error status 500 and the text of [InvalidId],
    not with the client fault that names the missing product: the loop meets
    the [InvalidId] of the first item, which no branch handles, before it
    reaches the second. *)
Theorem create_order_malformed_before_missing :
  create_order Examples.rt0 Examples.shop
    (Examples.order_of [Examples.item "xyz" Examples.f0_1;
                        Examples.item Examples.id1 Examples.f0_2]) 7 =
  (Examples.shop,
   error_response 500
     "'xyz' is not a valid ObjectId, it must be a 12-byte input or a 24-character hex string").
Proof. vm_compute. reflexivity. Qed.

(** C3: against a reachable store, a request whose items name existing
    products up to one that carries a malformed identifier (an ASCII text
    without whitespace that is not 24 hex digits) is answered with the
    internal-error status 500 and the text of [InvalidId], where the
    specification asks for a client fault. *)
Theorem create_order_malformed_id_internal_error :
  forall rt s order now pre item post,
    server_fault s = None ->
    items order = (pre ++ item :: post)%list ->
    Forall (fun it => product_exists s (product_id it)) pre ->
    no_blank (product_id item) = true ->
    all_ascii (product_id item) = true ->
    (forall oid, ObjectId_of_str (product_id item) <> inr oid) ->
    create_order rt s order now =
      (s, error_response 500
            (repr_str (product_id item) ++
             " is not a valid ObjectId, it must be a 12-byte input or a 24-character hex string")).
Proof.
  intros rt s order now pre item post Hf Hitems Hpre _ _ Hbad.
  rewrite (create_order_check_fails rt s order now
    (InvalidId (repr_str (product_id item) ++
       " is not a valid ObjectId, it must be a 12-byte input or a 24-character hex string"))).
  - reflexivity.
  - rewrite Hitems. now apply check_items_first_malformed.
Qed.

Lemma create_order_malformed_id_internal_error_witness :
  create_order Examples.rt0 Examples.shop
    (Examples.order_of [Examples.item "xyz" Examples.f0_1]) 7 =
  (Examples.shop,
   error_response 500
     "'xyz' is not a valid ObjectId, it must be a 12-byte input or a 24-character hex string").
Proof.
  apply (create_order_malformed_id_internal_error Examples.rt0 Examples.shop
           (Examples.order_of [Examples.item "xyz" Examples.f0_1]) 7
           [] (Examples.item "xyz" Examples.f0_1) []).
  - reflexivity.
  - reflexivity.
  - constructor.
  - reflexivity.
  - reflexivity.
  - exact xyz_malformed.
Defined.

(** C2 (as amended): against a reachable store, a CreateOrder request all
    of whose items name existing products and carry quantities that fit in
    64 bits is answered 201 with the new identifier; exactly one order
    document is appended, the catalogue is untouched, and the stored
    [total_amount] is the builtin [sum] of the items' supplied amounts in
    request order (binary64 additions, each rounded; the int 0 for no item),
    with no use of a product's price or of the quantities. *)
Theorem create_order_total_is_sum_of_supplied_amounts :
  forall rt s order now,
    server_fault s = None ->
    Forall (fun it => product_exists s (product_id it)) (items order) ->
    Forall (fun it => int64 (bought_quantity it) = true) (items order) ->
    snd (create_order rt s order now) =
      {| status_code := 201;
         content := VDict [("id", VStr (str_ObjectId (next_oid s)))] |}
    /\ orders (fst (create_order rt s order now)) =
         (orders s ++ [order_doc (new_order rt s order now)])%list
    /\ products (fst (create_order rt s order now)) = products s
    /\ last_total_amount (fst (create_order rt s order now)) =
         Some (py_sum rt (map total_amount (items order))).
Proof.
  intros rt s order now Hf Hex Hq.
  rewrite (create_order_ok rt s order now Hf Hex Hq).
  cbn [fst snd]. unfold last_total_amount, orders, products.
  autorewrite with store.
  repeat split.
  rewrite map_app. cbn [map]. rewrite last_last. reflexivity.
Qed.

Lemma create_order_total_is_sum_of_supplied_amounts_witness :
  let order := Examples.order_of [Examples.item Examples.id0 Examples.f0_1;
                                  Examples.item Examples.id0 Examples.f0_2] in
  status_code (snd (create_order Examples.rt0 Examples.shop order 7)) = 201
  /\ last_total_amount (fst (create_order Examples.rt0 Examples.shop order 7)) =
       Some (VFloat (S754_finite false 5404319552844596 (-54))).
Proof.
  intros order.
  destruct (create_order_total_is_sum_of_supplied_amounts Examples.rt0
              Examples.shop order 7) as (Hr & _ & _ & Ht).
  - reflexivity.
  - repeat constructor; exact shop_has_id0.
  - repeat constructor.
  - split; [now rewrite Hr | exact Ht].
Defined.

(** For a single item nothing is rounded: the stored total is the supplied
    amount. *)
Lemma single_item_total_is_exact rt x :
  number_value (py_sum rt [x]) = float_value x.
Proof.
  unfold py_sum. destruct (compensated_sum rt); destruct x as [[]| | |];
    reflexivity.
Qed.

(** C2 (as stated) fails: for the two amounts 0.1 and 0.2 the stored total is
    0.30000000000000004, which is not the exact sum of the two supplied
    numbers, whichever summation the interpreter uses. *)
Lemma create_order_exact_sum_counterexample :
  let order := Examples.order_of [Examples.item Examples.id0 Examples.f0_1;
                                  Examples.item Examples.id0 Examples.f0_2] in
  Forall (fun it => product_exists Examples.shop (product_id it)) (items order)
  /\ status_code (snd (create_order Examples.rt0 Examples.shop order 7)) = 201
  /\ total_inexact Examples.rt0 Examples.shop order 7
  /\ total_inexact Examples.rt1 Examples.shop order 7.
Proof.
  intros order. split; [|split; [|split]].
  - repeat constructor; exact shop_has_id0.
  - reflexivity.
  - eexists. eexists. split; [|split]; try (vm_compute; reflexivity).
    intros H. apply Qeq_bool_iff in H. vm_compute in H. discriminate H.
  - eexists. eexists. split; [|split]; try (vm_compute; reflexivity).
    intros H. apply Qeq_bool_iff in H. vm_compute in H. discriminate H.
Qed.

(** C4 (as amended): against a reachable store, a CreateOrder request with
    no item passes the existence loop vacuously and is accepted: the answer
    is 201 and one order with an empty item list and [total_amount] 0 is
    appended. *)
Theorem create_order_accepts_empty_items :
  forall rt s order now,
    server_fault s = None ->
    items order = [] ->
    snd (create_order rt s order now) =
      {| status_code := 201;
         content := VDict [("id", VStr (str_ObjectId (next_oid s)))] |}
    /\ orders (fst (create_order rt s order now)) =
         (orders s ++
          [order_doc {| so_id := next_oid s; so_request := order;
                        so_timestamp := now; so_total_amount := VInt 0 |}])%list.
Proof.
  intros rt s order now Hf Hnil.
  rewrite (create_order_ok rt s order now Hf);
    try (rewrite Hnil; constructor).
  cbn [fst snd]. unfold orders. autorewrite with store.
  unfold new_order. rewrite Hnil. split; reflexivity.
Qed.

Lemma create_order_accepts_empty_items_witness :
  status_code (snd (create_order Examples.rt0 empty_store
                      (Examples.order_of []) 7)) = 201
  /\ List.length (orders (fst (create_order Examples.rt0 empty_store
                            (Examples.order_of []) 7))) = 1%nat.
Proof.
  destruct (create_order_accepts_empty_items Examples.rt0 empty_store
              (Examples.order_of []) 7 eq_refl eq_refl) as [Hr Ho].
  rewrite Hr, Ho. split; reflexivity.
Defined.

(** C4 (as stated) fails: the request with no item is answered 201 and an
    order is persisted. *)
Lemma create_order_empty_items_counterexample :
  let order := Examples.order_of [] in
  items order = []
  /\ status_code (snd (create_order Examples.rt0 empty_store order 7)) = 201
  /\ orders (fst (create_order Examples.rt0 empty_store order 7))
     <> orders empty_store.
Proof.
  intros order. split; [reflexivity|]. split; [reflexivity|].
  vm_compute. discriminate.
Qed.

(** ** CreateProduct *)

Lemma sizes_encodable (l : list ProductSize) :
  Forall (fun ps => int64 (quantity ps) = true) l ->
  forallb bson_encodable (map (fun ps => VDict (ProductSize_dict ps)) l) = true.
Proof.
  induction 1 as [|ps rest Hq _ IH]; simpl; [reflexivity|].
  rewrite Hq, IH. reflexivity.
Qed.

(** The accepting path of [create_product]. *)
Lemma create_product_ok s product now :
  server_fault s = None ->
  Forall (fun ps => int64 (quantity ps) = true) (sizes product) ->
  create_product s product now =
    (with_collection s "products"
       (products s ++ [product_doc (new_product s product now)])
       (next_oid s + 1)%N,
     {| status_code := 201;
        content := VDict [("product_id", VStr (str_ObjectId (next_oid s)))] |}).
Proof.
  intros Hf Hq. unfold create_product, create_product_try, bind.
  rewrite insert_one_ok; [reflexivity | exact Hf |].
  cbn [dict_set ProductRequest_dict String.eqb Ascii.eqb Bool.eqb].
  cbn [bson_encodable forallb snd andb].
  rewrite (sizes_encodable _ Hq). destruct (description product); reflexivity.
Qed.

(** C7 (as amended): the sign of [price] is not validated.  Against a
    reachable store, a CreateProduct request with a negative price (and
    quantities that fit in 64 bits) is answered 201 with the new identifier,
    and the product is persisted with that negative price. *)
Theorem create_product_accepts_negative_price :
  forall s product now,
    server_fault s = None ->
    SFltb (price product) fzero = true ->
    Forall (fun ps => int64 (quantity ps) = true) (sizes product) ->
    snd (create_product s product now) =
      {| status_code := 201;
         content := VDict [("product_id", VStr (str_ObjectId (next_oid s)))] |}
    /\ products (fst (create_product s product now)) =
         (products s ++ [product_doc (new_product s product now)])%list
    /\ dict_get (fields (product_doc (new_product s product now))) "price" =
         Some (VFloat (price product)).
Proof.
  intros s product now Hf _ Hq.
  rewrite (create_product_ok s product now Hf Hq).
  cbn [fst snd]. unfold products. autorewrite with store.
  repeat split.
Qed.

Lemma create_product_accepts_negative_price_witness :
  SFltb (price Examples.refund) fzero = true
  /\ status_code (snd (create_product empty_store Examples.refund 1000)) = 201
  /\ products (fst (create_product empty_store Examples.refund 1000)) =
       [product_doc {| sp_id := 0%N; sp_request := Examples.refund;
                       sp_created_at := 1000 |}].
Proof.
  destruct (create_product_accepts_negative_price empty_store Examples.refund
              1000 eq_refl eq_refl (Forall_nil _)) as (Hr & Hp & _).
  split; [reflexivity|]. rewrite Hr, Hp. split; reflexivity.
Defined.

(** C7 (as stated) fails: the request with price -1.0 is answered 201 and a
    product is created. *)
Lemma create_product_negative_price_counterexample :
  SFltb (price Examples.refund) fzero = true
  /\ status_code (snd (create_product empty_store Examples.refund 1000)) = 201
  /\ products (fst (create_product empty_store Examples.refund 1000))
     <> products empty_store.
Proof.
  split; [reflexivity|]. split; [reflexivity|].
  vm_compute. discriminate.
Qed.

(** ** Health probe *)

(** [db.admin] is the collection "admin" of database "ecommerce", and
    [db.admin.command] the collection "admin.command". *)
Lemma db_admin_command_is_a_collection :
  getattr db "admin" = inr (Fallback (Collection "ecommerce" "admin"))
  /\ getattr (Collection "ecommerce" "admin") "command" =
       inr (Fallback (Collection "ecommerce" "admin.command")).
Proof. split; reflexivity. Qed.

(** whereas the collection methods the other endpoints use are members *)
Lemma db_products_methods :
  getattr db "products" = inr (Fallback (Collection "ecommerce" "products"))
  /\ getattr (Collection "ecommerce" "products") "insert_one" =
       inr (Member (Collection "ecommerce" "products") "insert_one")
  /\ getattr (Collection "ecommerce" "products") "find_one" =
       inr (Member (Collection "ecommerce" "products") "find_one")
  /\ getattr (Collection "ecommerce" "products") "find" =
       inr (Member (Collection "ecommerce" "products") "find").
Proof. repeat split; reflexivity. Qed.

(** Issued on a database, as in [client.admin.command], the same call is a
    round trip that succeeds exactly when the store is reachable. *)
Lemma command_on_database_pings s :
  getattr (Database "admin") "command" = inr (Member (Database "admin") "command")
  /\ (server_fault s = None ->
      exists v, call_with_string (Member (Database "admin") "command") "ping" s
                = (inr v, s))
  /\ (forall msg, server_fault s = Some msg ->
      call_with_string (Member (Database "admin") "command") "ping" s
      = (inl (PyMongoError msg), s)).
Proof.
  split; [reflexivity|]. split.
  - intros Hf. unfold call_with_string, run_command. rewrite Hf. eauto.
  - intros msg Hf. unfold call_with_string, run_command. now rewrite Hf.
Qed.

(** C8: whatever the state of the store, reachable or not, the health probe
    answers 200 with status "unhealthy", database "disconnected" and the
    text of the [TypeError] raised by calling the collection
    "admin.command"; no ping reaches the store and the "healthy" body is
    never produced. *)
Theorem health_check_always_unhealthy :
  forall s,
    health_check s =
      {| status_code := 200;
         content :=
           VDict [("status", VStr "unhealthy");
                  ("database", VStr "disconnected");
                  ("error", VStr "'Collection' object is not callable. If you meant to call the 'command' method on a 'Collection' object it is failing because no such method exists.")] |}.
Proof. intros s. reflexivity. Qed.

(** ** The shape of stored documents is an invariant *)

Lemma typed_store_empty : typed_store empty_store.
Proof. split; exists []; reflexivity. Qed.

Lemma typed_store_add_product s r n :
  typed_store s ->
  typed_store (with_collection s "products" (products s ++ [product_doc r]) n).
Proof.
  intros [[rs Hps] [os Hos]]. split.
  - exists (rs ++ [r])%list. unfold products.
    rewrite coll_with_collection_same. fold (products s).
    now rewrite Hps, map_app.
  - exists os. unfold orders.
    rewrite coll_with_collection_other by discriminate. exact Hos.
Qed.

Lemma typed_store_add_order s r n :
  typed_store s ->
  typed_store (with_collection s "orders" (orders s ++ [order_doc r]) n).
Proof.
  intros [[rs Hps] [os Hos]]. split.
  - exists rs. unfold products.
    rewrite coll_with_collection_other by discriminate. exact Hps.
  - exists (os ++ [r])%list. unfold orders.
    rewrite coll_with_collection_same. fold (orders s).
    now rewrite Hos, map_app.
Qed.

(** [create_product] keeps the store typed, whether it accepts or fails. *)
Lemma create_product_typed s product now :
  typed_store s -> typed_store (fst (create_product s product now)).
Proof.
  intros Ht. unfold create_product, create_product_try, bind, insert_one.
  destruct (server_fault s); [exact Ht|].
  destruct (bson_encodable _); [|exact Ht].
  cbn [fst inserted_id ObjectId_truthy ret].
  exact (typed_store_add_product s (new_product s product now) _ Ht).
Qed.

(** So does [create_order]. *)
Lemma create_order_typed rt s order now :
  typed_store s -> typed_store (fst (create_order rt s order now)).
Proof.
  intros Ht. unfold create_order, create_order_try. unfold bind at 1.
  pose proof (check_items_store rt (items order) s) as Hs.
  destruct (check_items rt (items order) s) as [[e|[]] s1].
  - cbn [snd] in Hs. subst s1. destruct e; exact Ht.
  - cbn [snd] in Hs. subst s1. unfold bind, insert_one.
    destruct (server_fault s); [exact Ht|].
    destruct (bson_encodable _); [|exact Ht].
    cbn [fst inserted_id ObjectId_truthy ret].
    exact (typed_store_add_order s (new_order rt s order now) _ Ht).
Qed.

(** ** Listing *)

Lemma filter_map_commute {A B} (f : B -> bool) (g : A -> B) (l : list A) :
  filter f (map g l) = map g (filter (fun a => f (g a)) l).
Proof.
  induction l as [|a l IH]; simpl; [reflexivity|].
  destruct (f (g a)); simpl; now rewrite IH.
Qed.

Lemma paginate_map {A B} (g : A -> B) limit_ offset (l : list A) :
  paginate limit_ offset (map g l) = map g (paginate limit_ offset l).
Proof.
  unfold paginate, apply_limit. rewrite skipn_map.
  destruct (limit_ =? 0); [reflexivity | apply firstn_map].
Qed.

Lemma lookup_name (r : stored_product) :
  lookup_path ["name"] (doc_value (product_doc r)) =
    [VStr (name (sp_request r))].
Proof. reflexivity. Qed.

Lemma lookup_sizes (r : stored_product) :
  lookup_path ["sizes"; "size"] (doc_value (product_doc r)) =
    map (fun ps => VStr (size ps)) (sizes (sp_request r)).
Proof.
  cbn. induction (sizes (sp_request r)) as [|ps l IH]; [reflexivity|].
  cbn. now rewrite IH.
Qed.

Lemma existsb_size_test z (l : list ProductSize) :
  existsb (leaf_test (fun v => match v with
                               | VStr s' => String.eqb s' z
                               | _ => false
                               end))
          (map (fun ps => VStr (size ps)) l) =
  existsb (fun ps => String.eqb (size ps) z) l.
Proof.
  induction l as [|ps l IH]; simpl; [reflexivity|].
  rewrite IH. unfold leaf_test. now rewrite orb_false_r.
Qed.

Lemma lookup_user_id (r : stored_order) :
  lookup_path ["user_id"] (doc_value (order_doc r)) =
    [VStr (user_id (so_request r))].
Proof. reflexivity. Qed.

(** The filter document of ListProducts, evaluated on a stored product. *)
Lemma run_filter_products rt s name_ size_ m rs :
  server_fault s = None ->
  products s = map product_doc rs ->
  name_matcher rt name_ = inr m ->
  run_filter rt "products" (query_filter name_ size_) s =
    (inr (map product_doc (filter (product_selected m size_) rs)), s).
Proof.
  intros Hf Hps Hm. unfold run_filter. rewrite Hf.
  fold (products s). rewrite Hps.
  unfold name_matcher in Hm. unfold query_filter.
  destruct (truthy_opt_str name_) eqn:Hn;
    destruct (truthy_opt_str size_) eqn:Hz;
    cbn [assoc_set String.eqb Ascii.eqb Bool.eqb compile_query
         compile_condition split_on];
    try rewrite Hm; try (injection Hm as <-);
    rewrite filter_map_commute; do 3 f_equal;
    apply filter_ext; intros r;
    unfold doc_matches, product_selected, size_selected;
    cbn [forallb fst snd]; rewrite ?lookup_name, ?lookup_sizes, ?Hz;
    rewrite ?existsb_size_test; cbn [existsb]; unfold leaf_test;
    rewrite ?orb_false_r, ?andb_true_r; reflexivity.
Qed.

Lemma run_filter_orders rt s user_id_ rs :
  server_fault s = None ->
  orders s = map order_doc rs ->
  run_filter rt "orders" [("user_id", CEqStr user_id_)] s =
    (inr (map order_doc (filter (order_selected user_id_) rs)), s).
Proof.
  intros Hf Hos. unfold run_filter. rewrite Hf.
  fold (orders s). rewrite Hos.
  cbn [compile_query compile_condition split_on Ascii.eqb Bool.eqb].
  rewrite filter_map_commute. do 3 f_equal.
  apply filter_ext. intros r.
  unfold doc_matches, order_selected. cbn [forallb fst snd].
  rewrite lookup_user_id. cbn [existsb]. unfold leaf_test.
  now rewrite !orb_false_r, andb_true_r.
Qed.

Lemma product_helper_view (r : stored_product) :
  product_helper (product_doc r) = inr (product_view r).
Proof. reflexivity. Qed.

Lemma order_helper_view (r : stored_order) :
  order_helper (order_doc r) = inr (order_view r).
Proof. reflexivity. Qed.

Lemma map_helper_views {A} (helper : document -> exn + value)
  (doc : A -> document) (view : A -> value) (l : list A) :
  (forall r, helper (doc r) = inr (view r)) ->
  map_helper helper (map doc l) = inr (map view l).
Proof.
  intros H. induction l as [|r l IH]; simpl; [reflexivity|].
  now rewrite H, IH.
Qed.

Lemma In_paginate {A} limit_ offset (l : list A) x :
  In x (paginate limit_ offset l) -> In x l.
Proof.
  unfold paginate, apply_limit. intros H.
  assert (In x (skipn (Z.to_nat offset) l)) as Hs.
  { destruct (limit_ =? 0); [exact H|].
    rewrite <- (firstn_skipn (Z.to_nat (Z.abs limit_))
                             (skipn (Z.to_nat offset) l)).
    apply in_or_app. now left. }
  rewrite <- (firstn_skipn (Z.to_nat offset) l).
  apply in_or_app. now right.
Qed.

Lemma listing_compliant {A} (view : A -> value) (key : string)
  (all shown : list A) :
  forallb (fun r => json_compliant (view r)) all = true ->
  (forall r, In r shown -> In r all) ->
  json_compliant (VDict [(key, VList (map view shown))]) = true.
Proof.
  intros Hall Hsub. cbn [json_compliant forallb snd].
  rewrite andb_true_r. apply forallb_forall. intros v Hv.
  apply in_map_iff in Hv. destruct Hv as (r & <- & Hr).
  rewrite forallb_forall in Hall. apply Hall, Hsub, Hr.
Qed.

Lemma In_page_of_selection {A} (f : A -> bool) limit_ offset (l : list A) r :
  In r (paginate limit_ offset (filter f l)) -> In r l.
Proof.
  intros H. apply In_paginate in H. apply filter_In in H. tauto.
Qed.

(** ListProducts on a catalogue of stored products. *)
Lemma list_products_ok rt s name_ size_ limit_ offset m rs :
  server_fault s = None ->
  products s = map product_doc rs ->
  forallb (fun r => json_compliant (product_view r)) rs = true ->
  name_matcher rt name_ = inr m ->
  0 <= offset < 2 ^ 63 ->
  int64 (Z.abs limit_) = true ->
  list_products rt s name_ size_ limit_ offset =
    {| status_code := 200;
       content :=
         VDict [("products",
                 VList (map product_view
                          (paginate limit_ offset
                             (filter (product_selected m size_) rs))))] |}.
Proof.
  intros Hf Hps Hfin Hm Hoff Hlim.
  unfold list_products, list_products_try, skip.
  destruct (offset <? 0) eqn:Hneg; [apply Z.ltb_lt in Hneg; lia|].
  unfold bind at 1, lift. unfold limit. unfold bind at 1.
  unfold bind at 1. unfold fetch. cbn [cur_skip cur_limit cur_coll cur_filter find].
  rewrite Hf.
  assert (int64 offset = true) as ->.
  { unfold int64. apply andb_true_iff. split; [apply Z.leb_le | apply Z.ltb_lt]; lia. }
  rewrite Hlim. cbn [andb]. unfold bind at 1.
  rewrite (run_filter_products rt s name_ size_ m rs Hf Hps Hm).
  unfold ret at 1. fold (paginate limit_ offset
    (map product_doc (filter (product_selected m size_) rs))).
  rewrite paginate_map.
  unfold bind, lift.
  rewrite (map_helper_views product_helper product_doc product_view _
             product_helper_view).
  unfold ret, respond.
  rewrite (listing_compliant product_view "products" rs _ Hfin
             (In_page_of_selection _ limit_ offset rs)).
  reflexivity.
Qed.

(** GetUserOrders on a collection of stored orders. *)
Lemma get_user_orders_ok rt s user_id_ limit_ offset rs :
  server_fault s = None ->
  orders s = map order_doc rs ->
  forallb (fun r => json_compliant (order_view r)) rs = true ->
  0 <= offset < 2 ^ 63 ->
  int64 (Z.abs limit_) = true ->
  get_user_orders rt s user_id_ limit_ offset =
    {| status_code := 200;
       content :=
         VDict [("orders",
                 VList (map order_view
                          (paginate limit_ offset
                             (filter (order_selected user_id_) rs))))] |}.
Proof.
  intros Hf Hos Hfin Hoff Hlim.
  unfold get_user_orders, get_user_orders_try, skip.
  destruct (offset <? 0) eqn:Hneg; [apply Z.ltb_lt in Hneg; lia|].
  unfold bind at 1, lift. unfold limit. unfold bind at 1.
  unfold bind at 1. unfold fetch. cbn [cur_skip cur_limit cur_coll cur_filter find].
  rewrite Hf.
  assert (int64 offset = true) as ->.
  { unfold int64. apply andb_true_iff. split; [apply Z.leb_le | apply Z.ltb_lt]; lia. }
  rewrite Hlim. cbn [andb]. unfold bind at 1.
  rewrite (run_filter_orders rt s user_id_ rs Hf Hos).
  unfold ret at 1. fold (paginate limit_ offset
    (map order_doc (filter (order_selected user_id_) rs))).
  rewrite paginate_map.
  unfold bind, lift.
  rewrite (map_helper_views order_helper order_doc order_view _
             order_helper_view).
  unfold ret, respond.
  rewrite (listing_compliant order_view "orders" rs _ Hfin
             (In_page_of_selection _ limit_ offset rs)).
  reflexivity.
Qed.

(** ** Literal patterns of the reference engine *)

Lemma parse_literal p :
  no_meta p = true -> RefRegex.parse p = Some (literals p).
Proof.
  induction p as [|c p IH]; simpl; [reflexivity|].
  intros H. apply andb_true_iff in H. destruct H as [H Hp].
  apply andb_true_iff in H. destruct H as [Hmeta Hascii].
  destruct (Ascii.eqb c ".") eqn:Hdot.
  - apply Ascii.eqb_eq in Hdot. subst c. discriminate Hmeta.
  - apply negb_true_iff in Hmeta. rewrite Hmeta, Hascii. simpl.
    now rewrite (IH Hp).
Qed.

Lemma match_here_literal p s :
  RefRegex.match_here true (literals p) s = prefix_ci p s.
Proof.
  revert s. induction p as [|c p IH]; intros s; [reflexivity|].
  destruct s as [|b s]; simpl; [reflexivity|]. now rewrite IH.
Qed.

Lemma search_literal p s :
  RefRegex.search true (literals p) s = contains_ci p s.
Proof.
  induction s as [|b s IH]; simpl; rewrite match_here_literal; [reflexivity|].
  now rewrite IH.
Qed.

(** On a pattern without metacharacter the reference engine, option [i],
    decides case-insensitive substring containment. *)
Lemma reference_engine_literal p :
  no_meta p = true ->
  exists m, RefRegex.compile p "i" = inr m
            /\ forall subject, m subject = contains_ci p subject.
Proof.
  intros H. exists (RefRegex.search true (literals p)).
  unfold RefRegex.compile. rewrite (parse_literal p H). split; [reflexivity|].
  intros subject. apply search_literal.
Qed.

(** ** ListProducts and GetUserOrders *)

(** C5 (as amended): against a reachable catalogue whose records JSON can
    render (finite floats), with an offset and a limit the store can encode,
    ListProducts returns, in store order and after skip and limit, exactly
    the products satisfying the conjunction of
    the supplied (non-empty) filters: [name] as a case-insensitive regular
    expression searched in the product name by the store's engine, and [size]
    equal to the [size] field of at least one [sizes] entry.  For a name free
    of metacharacters the reference engine's search is case-insensitive
    substring containment. *)
Theorem list_products_filter_semantics :
  forall rt s name_ size_ limit_ offset m rs,
    server_fault s = None ->
    products s = map product_doc rs ->
    forallb (fun r => json_compliant (product_view r)) rs = true ->
    name_matcher rt name_ = inr m ->
    0 <= offset < 2 ^ 63 ->
    int64 (Z.abs limit_) = true ->
    list_products rt s name_ size_ limit_ offset =
      {| status_code := 200;
         content :=
           VDict [("products",
                   VList (map product_view
                            (paginate limit_ offset
                               (filter (fun r =>
                                          m (name (sp_request r))
                                          && size_selected size_ (sp_request r))
                                       rs))))] |}
    /\ (forall p, no_meta p = true ->
        exists m', RefRegex.compile p "i" = inr m'
                   /\ forall subject, m' subject = contains_ci p subject).
Proof.
  intros rt s name_ size_ limit_ offset m rs Hf Hps Hfin Hm Hoff Hlim. split.
  - exact (list_products_ok rt s name_ size_ limit_ offset m rs
             Hf Hps Hfin Hm Hoff Hlim).
  - exact reference_engine_literal.
Qed.

Lemma list_products_filter_semantics_witness :
  list_products Examples.rt0 Examples.shop (Some "hIr") (Some "M") 10 0 =
    {| status_code := 200;
       content := VDict [("products",
                          VList [product_view Examples.tee_record])] |}
  /\ list_products Examples.rt0 Examples.shop (Some "hIr") (Some "m") 10 0 =
    {| status_code := 200; content := VDict [("products", VList [])] |}.
Proof.
  split.
  - exact (proj1 (list_products_filter_semantics Examples.rt0 Examples.shop
                    (Some "hIr") (Some "M") 10 0
                    (RefRegex.search true (literals "hIr"))
                    [Examples.tee_record]
                    eq_refl eq_refl eq_refl eq_refl ltac:(lia) eq_refl)).
  - exact (proj1 (list_products_filter_semantics Examples.rt0 Examples.shop
                    (Some "hIr") (Some "m") 10 0
                    (RefRegex.search true (literals "hIr"))
                    [Examples.tee_record]
                    eq_refl eq_refl eq_refl eq_refl ltac:(lia) eq_refl)).
Defined.

(** C5 (as stated) fails: the name "s.irt" selects the product "Shirt",
    whose name does not contain "s.irt" in any case. *)
Lemma list_products_regex_counterexample :
  contains_ci "s.irt" (name Examples.tee) = false
  /\ list_products Examples.rt0 Examples.shop (Some "s.irt") None 10 0 =
       {| status_code := 200;
          content := VDict [("products",
                             VList [product_view Examples.tee_record])] |}.
Proof. split; reflexivity. Qed.

(** C6 (as amended): each record a successful ListProducts call returns for
    a stored product carries exactly the five fields product_id (the text of
    the identifier), name, price, description and sizes, with the stored
    values; the stored [created_at] timestamp is not part of the record. *)
Theorem list_products_record_fields :
  forall rt s name_ size_ limit_ offset m rs,
    server_fault s = None ->
    products s = map product_doc rs ->
    forallb (fun r => json_compliant (product_view r)) rs = true ->
    name_matcher rt name_ = inr m ->
    0 <= offset < 2 ^ 63 ->
    int64 (Z.abs limit_) = true ->
    exists recs,
      list_products rt s name_ size_ limit_ offset =
        {| status_code := 200;
           content := VDict [("products", VList recs)] |}
      /\ Forall (fun v =>
                   exists r d,
                     In r rs /\ v = product_view r /\ v = VDict d
                     /\ keys d = view_keys
                     /\ dict_get d "created_at" = None
                     /\ dict_get (fields (product_doc r)) "created_at" =
                          Some (VDatetime (sp_created_at r)))
                recs.
Proof.
  intros rt s name_ size_ limit_ offset m rs Hf Hps Hfin Hm Hoff Hlim.
  eexists. split.
  - exact (list_products_ok rt s name_ size_ limit_ offset m rs
             Hf Hps Hfin Hm Hoff Hlim).
  - apply Forall_forall. intros v Hv.
    apply in_map_iff in Hv. destruct Hv as (r & <- & Hr).
    apply In_paginate in Hr. apply filter_In in Hr. destruct Hr as [Hr _].
    exists r. eexists. split; [exact Hr|]. split; [reflexivity|].
    split; [reflexivity|]. repeat split.
Qed.

Lemma list_products_record_fields_witness :
  exists recs,
    list_products Examples.rt0 Examples.shop None None 10 0 =
      {| status_code := 200; content := VDict [("products", VList recs)] |}
    /\ Forall (fun v => exists d, v = VDict d /\ keys d = view_keys) recs.
Proof.
  destruct (list_products_record_fields Examples.rt0 Examples.shop
              None None 10 0 (fun _ => true) [Examples.tee_record]
              eq_refl eq_refl eq_refl eq_refl ltac:(lia) eq_refl)
    as (recs & Hresp & Hall).
  exists recs. split; [exact Hresp|].
  eapply Forall_impl; [|exact Hall].
  intros v (r & d & _ & _ & Hd & Hk & _). exists d. now split.
Defined.

(** C6 (as stated) fails: the record returned for the stored product has no
    [created_at] field although the stored document has one. *)
Lemma list_products_created_at_counterexample :
  exists d,
    list_products Examples.rt0 Examples.shop None None 10 0 =
      {| status_code := 200;
         content := VDict [("products", VList [VDict d])] |}
    /\ dict_get d "created_at" = None
    /\ dict_get (fields (product_doc Examples.tee_record)) "created_at" =
         Some (VDatetime 1000).
Proof. eexists. repeat split. Qed.

(** A zero limit is no limit, whatever the call does otherwise: the cursor
    limited to 0 yields what it yields under any limit too large to cut the
    collection, errors included. *)
Lemma fetch_limit_zero rt c q off n s :
  Z.of_nat (List.length (coll s c)) <= n < 2 ^ 63 ->
  fetch rt {| cur_coll := c; cur_filter := q; cur_skip := off; cur_limit := 0 |} s
  = fetch rt {| cur_coll := c; cur_filter := q; cur_skip := off; cur_limit := n |} s.
Proof.
  intros [Hlen Hn]. unfold fetch. cbn [cur_coll cur_filter cur_skip cur_limit].
  destruct (server_fault s) eqn:Hf; [reflexivity|].
  assert (0 <= n) as Hn0 by lia.
  assert (int64 (Z.abs n) = true) as ->.
  { rewrite Z.abs_eq by exact Hn0. unfold int64.
    apply andb_true_iff. split; [apply Z.leb_le | apply Z.ltb_lt]; lia. }
  change (int64 (Z.abs 0)) with true.
  destruct (int64 off); [|reflexivity]. cbn [andb].
  unfold bind, run_filter. rewrite Hf.
  destruct (compile_query rt q) as [msg|ts]; [reflexivity|].
  unfold ret, apply_limit. cbn [Z.eqb].
  destruct (n =? 0) eqn:E; [reflexivity|].
  rewrite firstn_all2; [reflexivity|].
  rewrite Z.abs_eq by exact Hn0.
  rewrite length_skipn.
  pose proof (filter_length_le (doc_matches ts) (coll s c)) as Hle.
  lia.
Qed.

Lemma list_products_limit_zero rt s name_ size_ offset n :
  Z.of_nat (List.length (products s)) <= n < 2 ^ 63 ->
  list_products rt s name_ size_ 0 offset =
  list_products rt s name_ size_ n offset.
Proof.
  intros Hn. unfold list_products, list_products_try, skip, limit.
  destruct (offset <? 0); [reflexivity|].
  unfold bind at 1 4. unfold lift at 1 4. unfold bind at 1 3.
  unfold lift at 1 3. unfold bind at 1 3. cbn [find cur_coll cur_filter cur_skip cur_limit].
  now rewrite (fetch_limit_zero rt "products" (query_filter name_ size_)
                 offset n s Hn).
Qed.

(** C9: with [limit] equal to 0, ListProducts and GetUserOrders return every
    matching record that follows the first [offset] ones, not an empty
    sequence (reachable store whose records JSON can render, offset between
    0 and 2^63, name pattern accepted by the engine). *)
Theorem limit_zero_returns_all_after_offset :
  forall rt s name_ size_ user_id_ offset m rs os,
    server_fault s = None ->
    products s = map product_doc rs ->
    orders s = map order_doc os ->
    forallb (fun r => json_compliant (product_view r)) rs = true ->
    forallb (fun r => json_compliant (order_view r)) os = true ->
    name_matcher rt name_ = inr m ->
    0 <= offset < 2 ^ 63 ->
    list_products rt s name_ size_ 0 offset =
      {| status_code := 200;
         content :=
           VDict [("products",
                   VList (map product_view
                            (skipn (Z.to_nat offset)
                               (filter (product_selected m size_) rs))))] |}
    /\ get_user_orders rt s user_id_ 0 offset =
      {| status_code := 200;
         content :=
           VDict [("orders",
                   VList (map order_view
                            (skipn (Z.to_nat offset)
                               (filter (order_selected user_id_) os))))] |}.
Proof.
  intros rt s name_ size_ user_id_ offset m rs os
         Hf Hps Hos Hfp Hfo Hm Hoff.
  split.
  - exact (list_products_ok rt s name_ size_ 0 offset m rs
             Hf Hps Hfp Hm Hoff eq_refl).
  - exact (get_user_orders_ok rt s user_id_ 0 offset os
             Hf Hos Hfo Hoff eq_refl).
Qed.

Lemma limit_zero_returns_all_after_offset_witness :
  list_products Examples.rt0 shop_with_order None None 0 0 =
    {| status_code := 200;
       content := VDict [("products",
                          VList [product_view Examples.tee_record])] |}
  /\ get_user_orders Examples.rt0 shop_with_order "u1" 0 0 =
    {| status_code := 200;
       content := VDict [("orders", VList [order_view shop_order_record])] |}.
Proof.
  exact (limit_zero_returns_all_after_offset Examples.rt0 shop_with_order
           None None "u1" 0 (fun _ => true)
           [Examples.tee_record] [shop_order_record]
           eq_refl eq_refl eq_refl eq_refl eq_refl eq_refl ltac:(lia)).
Defined.

(** C10: an empty [name] or an empty [size] is ignored by ListProducts: the
    response is that of the same call without the parameter. *)
Theorem empty_string_filter_is_absent :
  forall rt s name_ size_ limit_ offset,
    list_products rt s (Some "") size_ limit_ offset =
      list_products rt s None size_ limit_ offset
    /\ list_products rt s name_ (Some "") limit_ offset =
      list_products rt s name_ None limit_ offset.
Proof. intros. split; reflexivity. Qed.

(** Matching [size] against the empty string would be another query: it
    would select only products having a [sizes] entry whose size is empty. *)
Lemma empty_size_condition_would_differ :
  list_products Examples.rt0 Examples.shop None (Some "") 10 0 =
    {| status_code := 200;
       content := VDict [("products",
                          VList [product_view Examples.tee_record])] |}
  /\ fst (run_filter Examples.rt0 "products" [("sizes.size", CEqStr "")]
            Examples.shop) = inr [].
Proof. split; reflexivity. Qed.

(** * Further properties of the endpoints *)

(** ** Identifier text *)

Lemma string_length_app (a b : string) :
  String.length (a ++ b) = (String.length a + String.length b)%nat.
Proof. induction a as [|c a IH]; simpl; [reflexivity | now rewrite IH]. Qed.

Lemma to_hex_length k n : String.length (Hex.to_hex k n) = k.
Proof.
  revert n. induction k as [|k IH]; intros n; simpl; [reflexivity|].
  rewrite string_length_app, IH. simpl. lia.
Qed.

Lemma digit_val_digit_char d :
  (d < 16)%N -> Hex.digit_val (Hex.digit_char d) = Some d.
Proof.
  intros H. destruct d as [|p]; [reflexivity|].
  do 5 (try destruct p as [p|p|]); try reflexivity; lia.
Qed.

Lemma of_hex_acc_app a c acc :
  Hex.of_hex_acc (a ++ String c "") acc =
    match Hex.of_hex_acc a acc, Hex.digit_val c with
    | Some v, Some d => Some (16 * v + d)%N
    | _, _ => None
    end.
Proof.
  revert acc. induction a as [|b a IH]; intros acc; simpl.
  - destruct (Hex.digit_val c); reflexivity.
  - destruct (Hex.digit_val b); [apply IH | reflexivity].
Qed.

Lemma of_hex_to_hex k n :
  (n < 16 ^ N.of_nat k)%N -> Hex.of_hex (Hex.to_hex k n) = Some n.
Proof.
  unfold Hex.of_hex. revert n. induction k as [|k IH]; intros n H.
  - simpl in *. f_equal. lia.
  - cbn [Hex.to_hex]. rewrite of_hex_acc_app.
    rewrite IH.
    + rewrite digit_val_digit_char by (apply N.mod_lt; lia).
      f_equal. symmetry. apply N.div_mod'.
    + rewrite Nat2N.inj_succ, N.pow_succ_r' in H.
      apply N.Div0.div_lt_upper_bound. exact H.
Qed.

(** The text of an identifier below 2^96 parses back to it. *)
Lemma ObjectId_text_round_trip o :
  (o < 2 ^ 96)%N -> ObjectId_of_str (str_ObjectId o) = inr o.
Proof.
  intros H. unfold ObjectId_of_str, str_ObjectId.
  rewrite to_hex_length. cbn [Nat.eqb].
  rewrite of_hex_to_hex; [reflexivity|].
  change (16 ^ N.of_nat 24)%N with (2 ^ 96)%N. exact H.
Qed.

(** ** What the write endpoints do to the store *)

(** Every exception of the existence loop that is an [HTTPException] is the
    400 of the [not found] branch; the store comes out as it went in. *)
Lemma check_items_error_kind rt its s e s' :
  check_items rt its s = (inl e, s') ->
  s' = s /\ match e with
            | HTTPException c _ => c = 400
            | _ => True
            end.
Proof.
  intros H. split.
  { pose proof (check_items_store rt its s) as Hs. rewrite H in Hs.
    exact Hs. }
  revert H. induction its as [|item rest IH]; cbn [check_items].
  - unfold ret. intros H. discriminate H.
  - unfold bind at 1, lift.
    destruct (ObjectId_of_str (product_id item)) as [e0|oid] eqn:Hoid.
    { intros H. injection H as <- _.
      now rewrite (ObjectId_of_str_error _ _ Hoid). }
    unfold bind, find_one, bind, run_filter.
    destruct (server_fault s) as [msg|].
    { intros H. injection H as <- _. exact I. }
    destruct (compile_query rt [("_id", CEqOid oid)]) as [msg|ts].
    { intros H. injection H as <- _. exact I. }
    unfold ret. destruct (hd_error _).
    + exact IH.
    + unfold raise. intros H. injection H as <- _. reflexivity.
Qed.

(** [create_order] once the existence loop has passed: the insert decides. *)
Lemma create_order_check_passes rt s order now :
  check_items rt (items order) s = (inr tt, s) ->
  create_order rt s order now =
    match server_fault s with
    | Some msg => (s, error_response 500 msg)
    | None =>
        if bson_encodable (VDict (fields (order_doc (new_order rt s order now))))
        then (with_collection s "orders"
                (orders s ++ [order_doc (new_order rt s order now)])
                (next_oid s + 1)%N,
              {| status_code := 201;
                 content := VDict [("id", VStr (str_ObjectId (next_oid s)))] |})
        else (s, error_response 500 "MongoDB can only handle up to 8-byte ints")
    end.
Proof.
  intros Hc. unfold create_order, create_order_try. unfold bind at 1.
  rewrite Hc. unfold bind, insert_one.
  destruct (server_fault s); [reflexivity|].
  change (dict_set (dict_set (OrderRequest_dict order) "timestamp"
                      (VDatetime now))
            "total_amount" (py_sum rt (map total_amount (items order))))
    with (fields (order_doc (new_order rt s order now))).
  destruct (bson_encodable _); reflexivity.
Qed.

(** X2: CreateOrder is all or nothing.  Either it answers 201 and exactly
    one order document is appended to the orders, or it answers 400 or 500
    and the store is exactly as before; no other status is produced. *)
Theorem create_order_all_or_nothing :
  forall rt s order now,
    (status_code (snd (create_order rt s order now)) = 201
     /\ orders (fst (create_order rt s order now)) =
          (orders s ++ [order_doc (new_order rt s order now)])%list)
    \/ ((status_code (snd (create_order rt s order now)) = 400
         \/ status_code (snd (create_order rt s order now)) = 500)
        /\ fst (create_order rt s order now) = s).
Proof.
  intros rt s order now.
  destruct (check_items rt (items order) s) as [[e|[]] s1] eqn:Hc.
  - destruct (check_items_error_kind rt _ s e s1 Hc) as [-> Hk].
    rewrite (create_order_check_fails rt s order now e Hc).
    right. destruct e; cbn [fst snd status_code error_response
                               order_error_response]; auto.
  - pose proof (check_items_store rt (items order) s) as Hs.
    rewrite Hc in Hs. cbn [snd] in Hs. subst s1.
    rewrite (create_order_check_passes rt s order now Hc).
    destruct (server_fault s); [right; split; [right|]; reflexivity|].
    destruct (bson_encodable _); [|right; split; [right|]; reflexivity].
    left. cbn [fst snd status_code].
    unfold orders. rewrite coll_with_collection_same.
    repeat split.
Qed.

(** X3: the two write endpoints never touch each other's collection:
    CreateOrder leaves the products as they are (no stock is decremented) and
    CreateProduct leaves the orders as they are, whatever the outcome. *)
Theorem writes_stay_in_their_collection :
  forall rt s product order now,
    orders (fst (create_product s product now)) = orders s
    /\ products (fst (create_order rt s order now)) = products s.
Proof.
  intros rt s product order now. split.
  - unfold create_product, create_product_try, bind, insert_one.
    destruct (server_fault s); [reflexivity|].
    destruct (bson_encodable _); [|reflexivity].
    cbn [fst inserted_id ObjectId_truthy ret]. unfold orders.
    now rewrite coll_with_collection_other by discriminate.
  - unfold create_order, create_order_try. unfold bind at 1.
    pose proof (check_items_store rt (items order) s) as Hs.
    destruct (check_items rt (items order) s) as [[e|[]] s1];
      cbn [snd] in Hs; subst s1.
    + destruct e; reflexivity.
    + unfold bind, insert_one.
      destruct (server_fault s); [reflexivity|].
      destruct (bson_encodable _); [|reflexivity].
      cbn [fst inserted_id ObjectId_truthy ret]. unfold products.
      now rewrite coll_with_collection_other by discriminate.
Qed.

(** ** Writes followed by reads *)

Lemma filter_all {A} (f : A -> bool) (l : list A) :
  (forall x, f x = true) -> filter f l = l.
Proof.
  intros H. induction l as [|a l IH]; simpl; [reflexivity|].
  now rewrite H, IH.
Qed.

Lemma paginate_all {A} (l : list A) : paginate 0 0 l = l.
Proof. reflexivity. Qed.

Lemma sizes_compliant (l : list ProductSize) :
  forallb json_compliant (map (fun ps => VDict (ProductSize_dict ps)) l) = true.
Proof. induction l as [|ps l IH]; simpl; [reflexivity | exact IH]. Qed.

Lemma product_view_compliant r :
  is_finite (price (sp_request r)) = true ->
  json_compliant (product_view r) = true.
Proof.
  intros H. cbn [product_view json_compliant forallb snd].
  rewrite H, sizes_compliant. destruct (description (sp_request r)); reflexivity.
Qed.

(** X4: a product just created can be ordered.  When CreateProduct succeeds
    (reachable store, quantities within 64 bits, identifier generator below
    2^96), a CreateOrder request whose items all carry the returned
    product_id text passes the existence check and is answered 201, and the
    order is appended. *)
Theorem created_product_can_be_ordered :
  forall rt s product now order now',
    server_fault s = None ->
    (next_oid s < 2 ^ 96)%N ->
    Forall (fun ps => int64 (quantity ps) = true) (sizes product) ->
    Forall (fun it => product_id it = str_ObjectId (next_oid s)) (items order) ->
    Forall (fun it => int64 (bought_quantity it) = true) (items order) ->
    snd (create_product s product now) =
      {| status_code := 201;
         content := VDict [("product_id", VStr (str_ObjectId (next_oid s)))] |}
    /\ snd (create_order rt (fst (create_product s product now)) order now') =
         {| status_code := 201;
            content := VDict [("id", VStr (str_ObjectId (next_oid s + 1)%N))] |}
    /\ orders (fst (create_order rt (fst (create_product s product now))
                      order now')) =
         (orders s ++
          [order_doc (new_order rt (fst (create_product s product now))
                                order now')])%list.
Proof.
  intros rt s product now order now' Hf Hn Hq Hids Hb.
  rewrite (create_product_ok s product now Hf Hq). cbn [fst snd].
  split; [reflexivity|].
  set (s1 := with_collection s "products"
               (products s ++ [product_doc (new_product s product now)])
               (next_oid s + 1)%N).
  assert (Forall (fun it => product_exists s1 (product_id it)) (items order))
    as Hex.
  { eapply Forall_impl; [|exact Hids]. intros it Hit. rewrite Hit.
    exists (next_oid s), (product_doc (new_product s product now)).
    split; [exact (ObjectId_text_round_trip _ Hn)|]. split; [|reflexivity].
    unfold products, s1. rewrite coll_with_collection_same.
    apply in_or_app. right. now left. }
  rewrite (create_order_ok rt s1 order now' eq_refl Hex Hb).
  cbn [fst snd]. split; [reflexivity|].
  unfold orders. rewrite coll_with_collection_same.
  unfold s1 at 1. now rewrite coll_with_collection_other by discriminate.
Qed.

Lemma created_product_can_be_ordered_witness :
  let order := Examples.order_of [Examples.item Examples.id1 Examples.f0_1] in
  snd (create_order Examples.rt0
         (fst (create_product Examples.shop Examples.refund 5)) order 6) =
    {| status_code := 201;
       content := VDict [("id", VStr "000000000000000000000002")] |}.
Proof.
  intros order.
  refine (proj1 (proj2 (created_product_can_be_ordered Examples.rt0
            Examples.shop Examples.refund 5 order 6 _ _ _ _ _))).
  - reflexivity.
  - reflexivity.
  - constructor.
  - constructor; [reflexivity | constructor].
  - constructor; [reflexivity | constructor].
Defined.

(** X5: a product just created is listed, last.  On a reachable store of
    stored products with finite prices, after a successful CreateProduct of
    a request with a finite price, ListProducts without filter and with limit
    0 returns the records of the earlier products in their order followed by
    the record of the new one. *)
Theorem created_product_is_listed_last :
  forall rt s product now rs,
    server_fault s = None ->
    products s = map product_doc rs ->
    forallb (fun r => json_compliant (product_view r)) rs = true ->
    Forall (fun ps => int64 (quantity ps) = true) (sizes product) ->
    is_finite (price product) = true ->
    list_products rt (fst (create_product s product now)) None None 0 0 =
      {| status_code := 200;
         content :=
           VDict [("products",
                   VList (map product_view
                            (rs ++ [new_product s product now])))] |}.
Proof.
  intros rt s product now rs Hf Hps Hfin Hq Hp.
  rewrite (create_product_ok s product now Hf Hq). cbn [fst].
  rewrite (list_products_ok rt _ None None 0 0 (fun _ => true)
             (rs ++ [new_product s product now])).
  - rewrite filter_all by reflexivity. reflexivity.
  - reflexivity.
  - unfold products. rewrite coll_with_collection_same.
    fold (products s). now rewrite Hps, map_app.
  - rewrite forallb_app, Hfin. cbn [forallb].
    rewrite (product_view_compliant (new_product s product now) Hp).
    reflexivity.
  - reflexivity.
  - lia.
  - reflexivity.
Qed.

Lemma created_product_is_listed_last_witness :
  list_products Examples.rt0
    (fst (create_product Examples.shop Examples.refund 5)) None None 0 0 =
    {| status_code := 200;
       content :=
         VDict [("products",
                 VList [product_view Examples.tee_record;
                        product_view {| sp_id := 1%N;
                                        sp_request := Examples.refund;
                                        sp_created_at := 5 |}])] |}.
Proof.
  exact (created_product_is_listed_last Examples.rt0 Examples.shop
           Examples.refund 5 [Examples.tee_record]
           eq_refl eq_refl eq_refl (Forall_nil _) eq_refl).
Defined.

(** X6: an order just created is returned to its user, last.  On a
    reachable store of stored orders that JSON can render, after a
    successful CreateOrder whose amounts and total are finite, GetUserOrders
    for the order's user_id with limit 0 returns the user's earlier orders in
    their order followed by the new one, with its items, timestamp and
    total. *)
Theorem created_order_is_returned_last :
  forall rt s order now os,
    server_fault s = None ->
    orders s = map order_doc os ->
    forallb (fun r => json_compliant (order_view r)) os = true ->
    Forall (fun it => product_exists s (product_id it)) (items order) ->
    Forall (fun it => int64 (bought_quantity it) = true) (items order) ->
    json_compliant (order_view (new_order rt s order now)) = true ->
    get_user_orders rt (fst (create_order rt s order now))
                    (user_id order) 0 0 =
      {| status_code := 200;
         content :=
           VDict [("orders",
                   VList (map order_view
                            (filter (order_selected (user_id order)) os
                             ++ [new_order rt s order now])))] |}.
Proof.
  intros rt s order now os Hf Hos Hfin Hex Hq Hnew.
  rewrite (create_order_ok rt s order now Hf Hex Hq). cbn [fst].
  rewrite (get_user_orders_ok rt _ (user_id order) 0 0
             (os ++ [new_order rt s order now])).
  - rewrite paginate_all, filter_app. cbn [filter].
    unfold order_selected at 2. cbn [new_order so_request].
    now rewrite String.eqb_refl.
  - reflexivity.
  - unfold orders. rewrite coll_with_collection_same.
    fold (orders s). now rewrite Hos, map_app.
  - rewrite forallb_app, Hfin. cbn [forallb]. now rewrite Hnew.
  - lia.
  - reflexivity.
Qed.

Lemma created_order_is_returned_last_witness :
  let order := Examples.order_of [Examples.item Examples.id0 Examples.f0_1] in
  get_user_orders Examples.rt0
    (fst (create_order Examples.rt0 shop_with_order order 9)) "u1" 0 0 =
    {| status_code := 200;
       content :=
         VDict [("orders",
                 VList [order_view shop_order_record;
                        order_view (new_order Examples.rt0 shop_with_order
                                              order 9)])] |}.
Proof.
  intros order.
  assert (product_exists shop_with_order Examples.id0) as Hex.
  { exists 0%N, (product_doc Examples.tee_record). repeat split. now left. }
  refine (created_order_is_returned_last Examples.rt0 shop_with_order order 9
            [shop_order_record] _ _ _ _ _ _).
  - reflexivity.
  - reflexivity.
  - reflexivity.
  - constructor; [exact Hex | constructor].
  - constructor; [reflexivity | constructor].
  - reflexivity.
Defined.

(** ** Invariants of every history of requests *)

Lemma step_typed rt s e : typed_store s -> typed_store (step rt s e).
Proof.
  intros Ht. destruct e; cbn [step].
  - now apply create_product_typed.
  - now apply create_order_typed.
  - exact Ht.
  - exact Ht.
Qed.

Lemma run_typed rt es s : typed_store s -> typed_store (run rt es s).
Proof.
  revert s. induction es as [|e es IH]; intros s Ht; [exact Ht|].
  apply IH, step_typed, Ht.
Qed.

(** X7: no history of requests leaves a document the helpers cannot read.
    In every store reached from the empty one by CreateProduct and
    CreateOrder calls (successful or not, across outages), each product
    document is a stored request with its creation time and each order
    document a stored request with its timestamp and total, so
    [product_helper] and [order_helper] never raise [KeyError] on them. *)
Theorem helpers_never_fail_on_served_stores :
  forall rt es,
    exists rs os,
      products (run rt es empty_store) = map product_doc rs
      /\ orders (run rt es empty_store) = map order_doc os
      /\ map_helper product_helper (products (run rt es empty_store)) =
           inr (map product_view rs)
      /\ map_helper order_helper (orders (run rt es empty_store)) =
           inr (map order_view os).
Proof.
  intros rt es.
  destruct (run_typed rt es empty_store typed_store_empty)
    as [[rs Hps] [os Hos]].
  exists rs, os. rewrite Hps, Hos. repeat split.
  - apply map_helper_views, product_helper_view.
  - apply map_helper_views, order_helper_view.
Qed.

(** ** Errors and edges *)

Lemma check_items_outage rt its s msg :
  server_fault s = Some msg ->
  its <> [] ->
  exists e, check_items rt its s = (inl e, s)
            /\ status_code (order_error_response e) = 500.
Proof.
  intros Hf Hne. destruct its as [|item rest]; [congruence|].
  cbn [check_items]. unfold bind at 1, lift.
  destruct (ObjectId_of_str (product_id item)) as [e|oid] eqn:Hoid.
  - exists e. split; [reflexivity|].
    now rewrite (ObjectId_of_str_error _ _ Hoid).
  - unfold bind, find_one, bind, run_filter. rewrite Hf.
    exists (PyMongoError msg). split; reflexivity.
Qed.

(** X9: while the store is unreachable every data endpoint answers 500 and
    writes nothing.  CreateProduct, and ListProducts and GetUserOrders called
    with a non-negative offset, carry the driver's message as detail;
    CreateOrder answers 500 too and leaves the store as it is. *)
Theorem outage_is_internal_error :
  forall rt s msg product order now name_ size_ user_id_ limit_ offset,
    server_fault s = Some msg ->
    create_product s product now = (s, error_response 500 msg)
    /\ fst (create_order rt s order now) = s
    /\ status_code (snd (create_order rt s order now)) = 500
    /\ (0 <= offset ->
        list_products rt s name_ size_ limit_ offset = error_response 500 msg
        /\ get_user_orders rt s user_id_ limit_ offset =
             error_response 500 msg).
Proof.
  intros rt s msg product order now name_ size_ user_id_ limit_ offset Hf.
  assert (exists r, create_order rt s order now = (s, r)
                    /\ status_code r = 500) as (r & Hr & Hstatus).
  { destruct (items order) as [|item rest] eqn:Hits.
    - rewrite (create_order_check_passes rt s order now);
        [|now rewrite Hits].
      rewrite Hf. eexists. split; reflexivity.
    - destruct (check_items_outage rt (item :: rest) s msg Hf)
        as (e & He & Hs); [discriminate|].
      rewrite <- Hits in He.
      rewrite (create_order_check_fails rt s order now e He).
      eexists. split; [reflexivity | exact Hs]. }
  rewrite Hr. cbn [fst snd].
  split; [|split; [reflexivity|split; [exact Hstatus|]]].
  - unfold create_product, create_product_try, bind, insert_one.
    now rewrite Hf.
  - intros Hoff.
    assert ((offset <? 0) = false) as Hneg by (apply Z.ltb_ge; lia).
    split.
    + unfold list_products, list_products_try, skip. rewrite Hneg.
      unfold bind, lift, limit, fetch. now rewrite Hf.
    + unfold get_user_orders, get_user_orders_try, skip. rewrite Hneg.
      unfold bind, lift, limit, fetch. now rewrite Hf.
Qed.

Lemma outage_is_internal_error_witness :
  create_product shop_down Examples.tee 5 =
    (shop_down, error_response 500 "connection refused")
  /\ list_products Examples.rt0 shop_down None None 10 0 =
       error_response 500 "connection refused".
Proof.
  destruct (outage_is_internal_error Examples.rt0 shop_down
              "connection refused" Examples.tee (Examples.order_of []) 5
              None None "u1" 10 0 eq_refl) as (Hp & _ & _ & Hl).
  split; [exact Hp|]. apply Hl. lia.
Defined.

(** X10: a negative offset is refused before the store is contacted.
    Whatever the store holds and whether or not it is reachable, ListProducts
    and GetUserOrders called with a negative offset answer 500 with detail
    "skip must be >= 0". *)
Theorem negative_offset_is_internal_error :
  forall rt s name_ size_ user_id_ limit_ offset,
    offset < 0 ->
    list_products rt s name_ size_ limit_ offset =
      error_response 500 "skip must be >= 0"
    /\ get_user_orders rt s user_id_ limit_ offset =
      error_response 500 "skip must be >= 0".
Proof.
  intros rt s name_ size_ user_id_ limit_ offset Hneg.
  apply Z.ltb_lt in Hneg.
  unfold list_products, list_products_try, get_user_orders,
    get_user_orders_try, skip.
  rewrite Hneg. split; reflexivity.
Qed.

Lemma negative_offset_is_internal_error_witness :
  list_products Examples.rt0 shop_down None None 10 (-1) =
    error_response 500 "skip must be >= 0"
  /\ get_user_orders Examples.rt0 shop_with_order "u1" 10 (-1) =
    error_response 500 "skip must be >= 0".
Proof.
  split.
  - exact (proj1 (negative_offset_is_internal_error Examples.rt0 shop_down
                    None None "u1" 10 (-1) eq_refl)).
  - exact (proj2 (negative_offset_is_internal_error Examples.rt0
                    shop_with_order None None "u1" 10 (-1) eq_refl)).
Defined.

(** ListProducts on stored products answers with the page, rendered or not. *)
Lemma list_products_respond rt s name_ size_ limit_ offset m rs :
  server_fault s = None ->
  products s = map product_doc rs ->
  name_matcher rt name_ = inr m ->
  0 <= offset < 2 ^ 63 ->
  int64 (Z.abs limit_) = true ->
  list_products rt s name_ size_ limit_ offset =
    respond 200
      (VDict [("products",
               VList (map product_view
                        (paginate limit_ offset
                           (filter (product_selected m size_) rs))))]).
Proof.
  intros Hf Hps Hm Hoff Hlim.
  unfold list_products, list_products_try, skip.
  destruct (offset <? 0) eqn:Hneg; [apply Z.ltb_lt in Hneg; lia|].
  unfold bind at 1, lift. unfold limit. unfold bind at 1.
  unfold bind at 1. unfold fetch.
  cbn [cur_skip cur_limit cur_coll cur_filter find].
  rewrite Hf.
  assert (int64 offset = true) as ->.
  { unfold int64. apply andb_true_iff.
    split; [apply Z.leb_le | apply Z.ltb_lt]; lia. }
  rewrite Hlim. cbn [andb]. unfold bind at 1.
  rewrite (run_filter_products rt s name_ size_ m rs Hf Hps Hm).
  unfold ret at 1. fold (paginate limit_ offset
    (map product_doc (filter (product_selected m size_) rs))).
  rewrite paginate_map.
  unfold bind, lift.
  rewrite (map_helper_views product_helper product_doc product_view _
             product_helper_view).
  reflexivity.
Qed.

Lemma firstn_plus {A} (a b : nat) (l : list A) :
  firstn (a + b) l = (firstn a l ++ firstn b (skipn a l))%list.
Proof.
  revert l. induction a as [|a IH]; intros l; [reflexivity|].
  destruct l as [|x l]; simpl.
  - now rewrite firstn_nil.
  - now rewrite IH.
Qed.

(** Two consecutive pages of [k] make the page of [2k]. *)
Lemma paginate_consecutive {A} (k offset : Z) (l : list A) :
  0 < k -> 0 <= offset ->
  (paginate k offset l ++ paginate k (offset + k) l)%list =
    paginate (2 * k) offset l.
Proof.
  intros Hk Hoff. unfold paginate, apply_limit.
  destruct (k =? 0) eqn:E1; [apply Z.eqb_eq in E1; lia|].
  destruct (2 * k =? 0) eqn:E2; [apply Z.eqb_eq in E2; lia|].
  rewrite !Z.abs_eq by lia.
  replace (Z.to_nat (2 * k)) with (Z.to_nat k + Z.to_nat k)%nat by lia.
  replace (Z.to_nat (offset + k)) with (Z.to_nat k + Z.to_nat offset)%nat
    by lia.
  rewrite <- skipn_skipn. symmetry. apply firstn_plus.
Qed.

(** X11: pages compose.  On a reachable catalogue of stored products that
    JSON can render, for a page size k > 0 and an offset >= 0 (2k and
    offset+k below 2^63), the records of page (limit k, offset) followed by
    those of page (limit k, offset + k) are exactly the records of page
    (limit 2k, offset): consecutive pages neither overlap nor skip, and keep
    the store order. *)
Theorem consecutive_pages_compose :
  forall rt s name_ size_ k offset m rs,
    server_fault s = None ->
    products s = map product_doc rs ->
    forallb (fun r => json_compliant (product_view r)) rs = true ->
    name_matcher rt name_ = inr m ->
    0 < k -> 2 * k < 2 ^ 63 ->
    0 <= offset -> offset + k < 2 ^ 63 ->
    (listed "products" (list_products rt s name_ size_ k offset)
     ++ listed "products" (list_products rt s name_ size_ k (offset + k)))%list
    = listed "products" (list_products rt s name_ size_ (2 * k) offset).
Proof.
  intros rt s name_ size_ k offset m rs Hf Hps Hfin Hm Hk H2k Hoff Hok.
  assert (forall z, 0 < z < 2 ^ 63 -> int64 (Z.abs z) = true) as Hint.
  { intros z Hz. rewrite Z.abs_eq by lia. unfold int64.
    apply andb_true_iff. split; [apply Z.leb_le | apply Z.ltb_lt]; lia. }
  rewrite (list_products_ok rt s name_ size_ k offset m rs Hf Hps Hfin Hm)
    by (try apply Hint; lia).
  rewrite (list_products_ok rt s name_ size_ k (offset + k) m rs
             Hf Hps Hfin Hm) by (try apply Hint; lia).
  rewrite (list_products_ok rt s name_ size_ (2 * k) offset m rs
             Hf Hps Hfin Hm) by (try apply Hint; lia).
  unfold listed. cbn [content String.eqb Ascii.eqb Bool.eqb].
  rewrite <- map_app. f_equal. now apply paginate_consecutive.
Qed.

Lemma consecutive_pages_compose_witness :
  (listed "products" (list_products Examples.rt0 shop3 None None 1 0)
   ++ listed "products" (list_products Examples.rt0 shop3 None None 1 1))%list
  = map product_view (firstn 2 three_records).
Proof.
  refine (eq_trans (consecutive_pages_compose Examples.rt0 shop3 None None
                      1 0 (fun _ => true) three_records _ _ _ _ _ _ _ _) _).
  - reflexivity.
  - reflexivity.
  - reflexivity.
  - reflexivity.
  - lia.
  - lia.
  - lia.
  - lia.
  - reflexivity.
Defined.

(** X12: GetUserOrders returns the orders of that user and no other.  On a
    reachable store of stored orders that JSON can render, every record
    returned is the full record (identifier text, user_id, items,
    user_address, timestamp, total_amount) of a stored order whose user_id
    equals the requested one exactly; and with limit 0 and offset 0 every
    stored order of that user is returned. *)
Theorem user_orders_are_exactly_the_users :
  forall rt s user_id_ limit_ offset os,
    server_fault s = None ->
    orders s = map order_doc os ->
    forallb (fun r => json_compliant (order_view r)) os = true ->
    0 <= offset < 2 ^ 63 ->
    int64 (Z.abs limit_) = true ->
    Forall (fun v => exists r,
                In r os /\ user_id (so_request r) = user_id_
                /\ v = order_view r)
           (listed "orders" (get_user_orders rt s user_id_ limit_ offset))
    /\ (forall r, In r os -> user_id (so_request r) = user_id_ ->
        In (order_view r)
           (listed "orders" (get_user_orders rt s user_id_ 0 0))).
Proof.
  intros rt s user_id_ limit_ offset os Hf Hos Hfin Hoff Hlim. split.
  - rewrite (get_user_orders_ok rt s user_id_ limit_ offset os
               Hf Hos Hfin Hoff Hlim).
    unfold listed. cbn [content String.eqb Ascii.eqb Bool.eqb].
    apply Forall_forall. intros v Hv.
    apply in_map_iff in Hv. destruct Hv as (r & <- & Hr).
    apply In_paginate in Hr. apply filter_In in Hr. destruct Hr as [Hr Hsel].
    exists r. repeat split; [exact Hr|].
    now apply String.eqb_eq in Hsel.
  - intros r Hr Hu.
    rewrite (get_user_orders_ok rt s user_id_ 0 0 os Hf Hos Hfin)
      by (try reflexivity; lia).
    unfold listed. cbn [content String.eqb Ascii.eqb Bool.eqb].
    apply in_map. rewrite paginate_all. apply filter_In. split; [exact Hr|].
    unfold order_selected. now apply String.eqb_eq.
Qed.

Lemma user_orders_are_exactly_the_users_witness :
  listed "orders" (get_user_orders Examples.rt0 shop_with_order "U1" 10 0) = []
  /\ In (order_view shop_order_record)
        (listed "orders" (get_user_orders Examples.rt0 shop_with_order "u1" 0 0)).
Proof.
  split.
  - reflexivity.
  - refine (proj2 (user_orders_are_exactly_the_users Examples.rt0
                     shop_with_order "u1" 10 0 [shop_order_record]
                     _ _ _ _ _) shop_order_record _ _).
    + reflexivity.
    + reflexivity.
    + reflexivity.
    + lia.
    + reflexivity.
    + now left.
    + reflexivity.
Defined.

(** ** Documents the helpers cannot read *)

Lemma getitem_error d k e : getitem d k = inl e -> dict_get d k = None /\ e = KeyError k.
Proof.
  unfold getitem. destruct (dict_get d k); intros H; inversion H. now split.
Qed.

(** [product_helper] fails exactly on a missing key, with its [KeyError]. *)
Lemma product_helper_error d e :
  product_helper d = inl e ->
  exists k, In k product_keys /\ dict_get (fields d) k = None
            /\ e = KeyError k.
Proof.
  unfold product_helper, product_keys.
  destruct (getitem (fields d) "name") as [e1|v1] eqn:H1.
  { intros H. injection H as <-. apply getitem_error in H1.
    exists "name". simpl. tauto. }
  destruct (getitem (fields d) "price") as [e2|v2] eqn:H2.
  { intros H. injection H as <-. apply getitem_error in H2.
    exists "price". simpl. tauto. }
  destruct (getitem (fields d) "description") as [e3|v3] eqn:H3.
  { intros H. injection H as <-. apply getitem_error in H3.
    exists "description". simpl. tauto. }
  destruct (getitem (fields d) "sizes") as [e4|v4] eqn:H4.
  { intros H. injection H as <-. apply getitem_error in H4.
    exists "sizes". simpl. tauto. }
  intros H. discriminate H.
Qed.

Lemma product_helper_missing d :
  (exists k, In k product_keys /\ dict_get (fields d) k = None) ->
  exists e, product_helper d = inl e.
Proof.
  intros (k & Hk & Hnone). unfold product_helper, getitem.
  destruct (dict_get (fields d) "name") eqn:H1; [|eauto].
  destruct (dict_get (fields d) "price") eqn:H2; [|eauto].
  destruct (dict_get (fields d) "description") eqn:H3; [|eauto].
  destruct (dict_get (fields d) "sizes") eqn:H4; [|eauto].
  exfalso. simpl in Hk.
  destruct Hk as [<-|[<-|[<-|[<-|[]]]]]; congruence.
Qed.

(** The loop over the cursor stops at the first document the helper cannot
    read. *)
Lemma map_helper_error helper (docs : list document) :
  Exists (fun d => exists e, helper d = inl e) docs ->
  exists d e, In d docs /\ helper d = inl e /\ map_helper helper docs = inl e.
Proof.
  induction docs as [|d docs IH]; intros Hex; [inversion Hex|].
  cbn [map_helper]. destruct (helper d) as [e|v] eqn:Hd.
  - exists d, e. repeat split; [now left | exact Hd].
  - destruct IH as (d' & e & Hin & He & Hm).
    + inversion Hex as [? ? [e0 He0]|]; subst; [congruence | assumption].
    + exists d', e. rewrite Hm. repeat split; [now right | exact He].
Qed.

(** X13: one unreadable document fails the whole listing.  If some product
    document lacks one of the keys name, price, description, sizes (a
    document written by other means than CreateProduct), an unfiltered
    ListProducts over the whole reachable catalogue answers 500 whose detail
    is the quoted name of a missing key, and returns no product at all. *)
Theorem unreadable_product_fails_listing :
  forall rt s,
    server_fault s = None ->
    Exists (fun d => exists k, In k product_keys
                               /\ dict_get (fields d) k = None)
           (products s) ->
    exists k, In k product_keys
              /\ list_products rt s None None 0 0 =
                   error_response 500 (repr_str k).
Proof.
  intros rt s Hf Hex.
  assert (Exists (fun d => exists e, product_helper d = inl e) (products s))
    as Hex'.
  { eapply Exists_impl; [|exact Hex]. intros d. apply product_helper_missing. }
  destruct (map_helper_error product_helper (products s) Hex')
    as (d & e & _ & He & Hm).
  destruct (product_helper_error d e He) as (k & Hk & _ & ->).
  exists k. split; [exact Hk|].
  unfold list_products, list_products_try, skip. cbn [Z.ltb Z.compare].
  unfold bind at 1, lift. unfold limit. unfold bind at 1.
  unfold bind at 1. unfold fetch.
  cbn [cur_skip cur_limit cur_coll cur_filter find].
  rewrite Hf. cbn [int64 Z.abs andb]. change (int64 0) with true. cbn [andb].
  unfold bind at 1. unfold run_filter. rewrite Hf.
  cbn [query_filter truthy_opt_str compile_query].
  unfold ret at 1. cbn [apply_limit Z.eqb Z.to_nat skipn].
  assert (filter (doc_matches []) (coll s "products") = products s) as ->.
  { apply filter_all. reflexivity. }
  unfold bind, lift. rewrite Hm. reflexivity.
Qed.

Lemma unreadable_product_fails_listing_witness :
  exists k, In k product_keys
            /\ list_products Examples.rt0 legacy_shop None None 0 0 =
                 error_response 500 (repr_str k).
Proof.
  apply (unreadable_product_fails_listing Examples.rt0 legacy_shop eq_refl).
  right. left. exists "description". split; [|reflexivity].
  right. right. now left.
Defined.

(** On the example the missing key is [description]. *)
Lemma legacy_listing_names_description :
  list_products Examples.rt0 legacy_shop None None 0 0 =
    error_response 500 "'description'".
Proof. reflexivity. Qed.

(** X14: a name the regular-expression engine rejects fails the listing.
    When the store is reachable and offset and limit are acceptable, a
    non-empty [name] that the engine refuses as a pattern makes ListProducts
    answer 500 carrying the engine's message, whatever the size filter and
    whichever products are stored. *)
Theorem rejected_pattern_is_internal_error :
  forall rt s name_ size_ limit_ offset msg,
    server_fault s = None ->
    truthy_opt_str name_ = true ->
    regex_compile rt (unwrap name_) "i" = inl msg ->
    0 <= offset < 2 ^ 63 ->
    int64 (Z.abs limit_) = true ->
    list_products rt s name_ size_ limit_ offset = error_response 500 msg.
Proof.
  intros rt s name_ size_ limit_ offset msg Hf Hn Hre Hoff Hlim.
  unfold list_products, list_products_try, skip.
  destruct (offset <? 0) eqn:Hneg; [apply Z.ltb_lt in Hneg; lia|].
  unfold bind at 1, lift. unfold limit. unfold bind at 1.
  unfold bind at 1. unfold fetch.
  cbn [cur_skip cur_limit cur_coll cur_filter find].
  rewrite Hf.
  assert (int64 offset = true) as ->.
  { unfold int64. apply andb_true_iff.
    split; [apply Z.leb_le | apply Z.ltb_lt]; lia. }
  rewrite Hlim. cbn [andb]. unfold bind at 1. unfold run_filter. rewrite Hf.
  unfold query_filter. rewrite Hn.
  destruct (truthy_opt_str size_);
    cbn [assoc_set String.eqb Ascii.eqb Bool.eqb compile_query
         compile_condition]; rewrite Hre; reflexivity.
Qed.

Lemma rejected_pattern_is_internal_error_witness :
  list_products Examples.rt0 Examples.shop (Some "s(irt") None 10 0 =
    error_response 500 "Regular expression is invalid".
Proof.
  apply (rejected_pattern_is_internal_error Examples.rt0 Examples.shop
           (Some "s(irt") None 10 0 "Regular expression is invalid");
    try reflexivity.
  lia.
Defined.

Lemma sizes_not_encodable (l : list ProductSize) :
  Exists (fun ps => int64 (quantity ps) = false) l ->
  forallb bson_encodable (map (fun ps => VDict (ProductSize_dict ps)) l) = false.
Proof.
  induction 1 as [ps rest Hq|ps rest _ IH]; cbn [map forallb].
  - cbn [bson_encodable ProductSize_dict forallb snd]. now rewrite Hq.
  - rewrite IH. apply andb_false_r.
Qed.

Lemma items_not_encodable (l : list OrderItem) :
  Exists (fun it => int64 (bought_quantity it) = false) l ->
  forallb bson_encodable (map (fun it => VDict (OrderItem_dict it)) l) = false.
Proof.
  induction 1 as [it rest Hq|it rest _ IH]; cbn [map forallb].
  - cbn [bson_encodable OrderItem_dict forallb snd]. now rewrite Hq.
  - rewrite IH. apply andb_false_r.
Qed.

(** X15: an integer too wide for the store is an internal error and nothing
    is written.  Against a reachable store, a CreateProduct request with a
    size quantity outside the signed 64-bit range, and a CreateOrder request
    whose products all exist but with a bought_quantity outside that range,
    are answered 500, the store left exactly as it is. *)
Theorem wide_integer_is_internal_error :
  forall rt s product order now,
    server_fault s = None ->
    (Exists (fun ps => int64 (quantity ps) = false) (sizes product) ->
     fst (create_product s product now) = s
     /\ status_code (snd (create_product s product now)) = 500)
    /\ (Forall (fun it => product_exists s (product_id it)) (items order) ->
        Exists (fun it => int64 (bought_quantity it) = false) (items order) ->
        fst (create_order rt s order now) = s
        /\ status_code (snd (create_order rt s order now)) = 500).
Proof.
  intros rt s product order now Hf. split.
  - intros Hex. unfold create_product, create_product_try, bind, insert_one.
    rewrite Hf.
    cbn [dict_set ProductRequest_dict String.eqb Ascii.eqb Bool.eqb].
    cbn [bson_encodable forallb snd andb].
    rewrite (sizes_not_encodable _ Hex).
    destruct (description product); split; reflexivity.
  - intros Hall Hex.
    rewrite (create_order_check_passes rt s order now
               (check_items_all_exist rt _ s Hf Hall)).
    rewrite Hf.
    cbn [order_doc fields new_order so_request so_timestamp so_total_amount
         dict_set OrderRequest_dict String.eqb Ascii.eqb Bool.eqb].
    cbn [bson_encodable forallb snd andb].
    rewrite (items_not_encodable _ Hex). split; reflexivity.
Qed.

Lemma wide_integer_is_internal_error_witness :
  let bulk := {| name := "Bulk"; price := Examples.f0_1; description := None;
                 sizes := [{| size := "XL"; quantity := 2 ^ 63 |}] |} in
  fst (create_product Examples.shop bulk 5) = Examples.shop
  /\ status_code (snd (create_product Examples.shop bulk 5)) = 500.
Proof.
  intros bulk.
  apply (proj1 (wide_integer_is_internal_error Examples.rt0 Examples.shop
                  bulk (Examples.order_of []) 5 eq_refl)).
  left. reflexivity.
Defined.

Lemma product_view_not_compliant r :
  is_finite (price (sp_request r)) = false ->
  json_compliant (product_view r) = false.
Proof.
  intros H. cbn [product_view json_compliant forallb snd]. now rewrite H.
Qed.

(** X16: a product with a non-finite price is accepted and then breaks the
    listing.  On a reachable store of stored products, CreateProduct of a
    request whose price is NaN or an infinity (quantities within 64 bits)
    succeeds with 201; from then on an unfiltered ListProducts over the whole
    catalogue answers the framework's 500 "Internal Server Error", since the
    response cannot be rendered as JSON. *)
Theorem non_finite_price_breaks_listing :
  forall rt s product now rs,
    server_fault s = None ->
    products s = map product_doc rs ->
    Forall (fun ps => int64 (quantity ps) = true) (sizes product) ->
    is_finite (price product) = false ->
    status_code (snd (create_product s product now)) = 201
    /\ list_products rt (fst (create_product s product now)) None None 0 0 =
         {| status_code := 500; content := VStr "Internal Server Error" |}.
Proof.
  intros rt s product now rs Hf Hps Hq Hp.
  rewrite (create_product_ok s product now Hf Hq). cbn [fst snd].
  split; [reflexivity|].
  rewrite (list_products_respond rt _ None None 0 0 (fun _ => true)
             (rs ++ [new_product s product now])).
  - rewrite filter_all by reflexivity. rewrite paginate_all.
    unfold respond. cbn [json_compliant forallb snd].
    rewrite map_app, forallb_app. cbn [map forallb].
    rewrite (product_view_not_compliant (new_product s product now) Hp).
    cbn [andb]. now rewrite !andb_false_r.
  - reflexivity.
  - unfold products. rewrite coll_with_collection_same.
    fold (products s). now rewrite Hps, map_app.
  - reflexivity.
  - lia.
  - reflexivity.
Qed.

Lemma non_finite_price_breaks_listing_witness :
  let costly := {| name := "Gem"; price := S754_infinity false;
                   description := None; sizes := [] |} in
  status_code (snd (create_product Examples.shop costly 5)) = 201
  /\ list_products Examples.rt0 (fst (create_product Examples.shop costly 5))
       None None 0 0 =
       {| status_code := 500; content := VStr "Internal Server Error" |}.
Proof.
  intros costly.
  exact (non_finite_price_breaks_listing Examples.rt0 Examples.shop costly 5
           [Examples.tee_record] eq_refl eq_refl (Forall_nil _) eq_refl).
Defined.

(** ** Identifiers in requests *)

Lemma digit_val_upper c : Hex.digit_val (upper c) = Hex.digit_val c.
Proof. destruct c as [[] [] [] [] [] [] [] []]; reflexivity. Qed.

Lemma of_hex_acc_upper s acc :
  Hex.of_hex_acc (to_upper s) acc = Hex.of_hex_acc s acc.
Proof.
  revert acc. induction s as [|c s IH]; intros acc; [reflexivity|].
  cbn [to_upper Hex.of_hex_acc]. rewrite digit_val_upper.
  destruct (Hex.digit_val c); [apply IH | reflexivity].
Qed.

Lemma to_upper_length s : String.length (to_upper s) = String.length s.
Proof. induction s as [|c s IH]; simpl; [reflexivity | now rewrite IH]. Qed.

Lemma ObjectId_of_str_upper pid oid :
  ObjectId_of_str pid = inr oid -> ObjectId_of_str (to_upper pid) = inr oid.
Proof.
  unfold ObjectId_of_str, Hex.of_hex.
  rewrite to_upper_length, of_hex_acc_upper.
  destruct (String.length pid =? 24)%nat; [|discriminate].
  destruct (Hex.of_hex_acc pid 0); [|discriminate]. now intros H.
Qed.

(** X17: product identifiers are read without regard to the case of their
    hex digits.  If a CreateOrder request is accepted (reachable store, all
    products existing, quantities within 64 bits), the same request with
    every product_id written in upper case is accepted too, with 201. *)
Theorem product_id_case_is_ignored :
  forall rt s order now,
    server_fault s = None ->
    Forall (fun it => product_exists s (product_id it)) (items order) ->
    Forall (fun it => int64 (bought_quantity it) = true) (items order) ->
    snd (create_order rt s
           (with_items order (map upper_item (items order))) now) =
      {| status_code := 201;
         content := VDict [("id", VStr (str_ObjectId (next_oid s)))] |}.
Proof.
  intros rt s order now Hf Hex Hq.
  rewrite (create_order_ok rt s _ now Hf); [reflexivity| |].
  - cbn [with_items items]. apply Forall_map.
    eapply Forall_impl; [|exact Hex].
    intros it (oid & d & Hoid & Hin & Hid). cbn [upper_item product_id].
    exists oid, d. repeat split; auto. now apply ObjectId_of_str_upper.
  - cbn [with_items items]. apply Forall_map.
    eapply Forall_impl; [|exact Hq]. intros it Hit. exact Hit.
Qed.

Lemma product_id_case_is_ignored_witness :
  let order := Examples.order_of
                 [Examples.item "00000000000000000000000a" Examples.f0_1] in
  items (with_items order (map upper_item (items order))) =
    [Examples.item "00000000000000000000000A" Examples.f0_1]
  /\ status_code (snd (create_order Examples.rt0 shop_a
                        (with_items order (map upper_item (items order))) 7))
     = 201.
Proof.
  intros order. split; [reflexivity|].
  assert (product_exists shop_a "00000000000000000000000a") as Hex.
  { exists 10%N, (product_doc {| sp_id := 10%N; sp_request := Examples.tee;
                                  sp_created_at := 1000 |}).
    split; [reflexivity|]. split; [now left | reflexivity]. }
  rewrite (product_id_case_is_ignored Examples.rt0 shop_a order 7 eq_refl).
  - reflexivity.
  - constructor; [exact Hex | constructor].
  - constructor; [reflexivity | constructor].
Defined.

(** ** The existence loop stops at the first failure *)

Lemma check_items_app rt l1 l2 s :
  check_items rt (l1 ++ l2) s =
    match check_items rt l1 s with
    | (inl e, s') => (inl e, s')
    | (inr _, s') => check_items rt l2 s'
    end.
Proof.
  induction l1 as [|item rest IH]; [reflexivity|].
  cbn [app check_items]. unfold find_one, run_filter, bind, lift, ret.
  destruct (ObjectId_of_str (product_id item)); [reflexivity|].
  destruct (server_fault s); [reflexivity|].
  destruct (compile_query rt _); [reflexivity|].
  destruct (hd_error _); [exact IH | reflexivity].
Qed.

(** X18: once an item fails the check, the rest of the request does not
    matter.  If two CreateOrder requests begin with the same items, all
    naming existing products, followed by the same item, which names no
    existing product and whose identifier text has no whitespace, then both
    requests get the same response and leave the store as it is: what
    follows the failing item (further items, valid or not), the user, the
    address and the time are never looked at. *)
Theorem items_after_a_failure_are_ignored :
  forall rt s order1 order2 now1 now2 pre item post1 post2,
    items order1 = (pre ++ item :: post1)%list ->
    items order2 = (pre ++ item :: post2)%list ->
    Forall (fun it => product_exists s (product_id it)) pre ->
    no_blank (product_id item) = true ->
    ~ product_exists s (product_id item) ->
    create_order rt s order1 now1 = create_order rt s order2 now2
    /\ fst (create_order rt s order1 now1) = s.
Proof.
  intros rt s order1 order2 now1 now2 pre item post1 post2 H1 H2 Hpre _ Hmiss.
  assert (Exists (fun it => ~ product_exists s (product_id it))
                 (pre ++ [item])) as Hex.
  { apply Exists_app. right. now left. }
  destruct (check_items_some_missing_kind rt (pre ++ [item]) s Hex)
    as (e & He & _).
  assert (forall post, check_items rt (pre ++ item :: post) s = (inl e, s))
    as Hall.
  { intros post.
    change (pre ++ item :: post)%list with (pre ++ [item] ++ post)%list.
    rewrite app_assoc, check_items_app, He. reflexivity. }
  rewrite (create_order_check_fails rt s order1 now1 e)
    by (rewrite H1; apply Hall).
  rewrite (create_order_check_fails rt s order2 now2 e)
    by (rewrite H2; apply Hall).
  split; reflexivity.
Qed.

Lemma items_after_a_failure_are_ignored_witness :
  create_order Examples.rt0 Examples.shop
    (Examples.order_of [Examples.item Examples.id0 Examples.f0_1;
                        Examples.item Examples.id1 Examples.f0_1]) 7 =
  create_order Examples.rt0 Examples.shop
    (Examples.order_of [Examples.item Examples.id0 Examples.f0_1;
                        Examples.item Examples.id1 Examples.f0_1;
                        Examples.item "xyz" Examples.f0_2]) 8.
Proof.
  refine (proj1 (items_after_a_failure_are_ignored Examples.rt0 Examples.shop
                   _ _ 7 8 [Examples.item Examples.id0 Examples.f0_1]
                   (Examples.item Examples.id1 Examples.f0_1)
                   [] [Examples.item "xyz" Examples.f0_2] _ _ _ _ _)).
  - reflexivity.
  - reflexivity.
  - constructor; [exact shop_has_id0 | constructor].
  - reflexivity.
  - exact shop_lacks_id1.
Defined.

(** ** Page bounds *)

(** X19: an offset at or past the end gives an empty page, not an error.  On
    a reachable catalogue of stored products that JSON can render, if the
    offset is at least the number of stored products (and below 2^63),
    ListProducts answers 200 with an empty product list. *)
Theorem offset_past_the_end_is_empty :
  forall rt s name_ size_ limit_ offset m rs,
    server_fault s = None ->
    products s = map product_doc rs ->
    forallb (fun r => json_compliant (product_view r)) rs = true ->
    name_matcher rt name_ = inr m ->
    Z.of_nat (List.length rs) <= offset < 2 ^ 63 ->
    int64 (Z.abs limit_) = true ->
    list_products rt s name_ size_ limit_ offset =
      {| status_code := 200; content := VDict [("products", VList [])] |}.
Proof.
  intros rt s name_ size_ limit_ offset m rs Hf Hps Hfin Hm Hoff Hlim.
  rewrite (list_products_ok rt s name_ size_ limit_ offset m rs
             Hf Hps Hfin Hm) by (try exact Hlim; lia).
  unfold paginate. rewrite skipn_all2.
  - unfold apply_limit. destruct (limit_ =? 0); [reflexivity|].
    now rewrite firstn_nil.
  - pose proof (filter_length_le (product_selected m size_) rs). lia.
Qed.

Lemma offset_past_the_end_is_empty_witness :
  list_products Examples.rt0 shop3 None None 10 3 =
    {| status_code := 200; content := VDict [("products", VList [])] |}.
Proof.
  refine (offset_past_the_end_is_empty Examples.rt0 shop3 None None 10 3
            (fun _ => true) three_records _ _ _ _ _ _).
  - reflexivity.
  - reflexivity.
  - reflexivity.
  - reflexivity.
  - cbn. lia.
  - reflexivity.
Defined.

(** X20: a positive limit bounds the page.  On a reachable store of stored
    documents that JSON can render, with 0 < limit < 2^63 and an acceptable
    offset, ListProducts and GetUserOrders return at most [limit] records. *)
Theorem positive_limit_bounds_the_page :
  forall rt s name_ size_ user_id_ limit_ offset m rs os,
    server_fault s = None ->
    products s = map product_doc rs ->
    orders s = map order_doc os ->
    forallb (fun r => json_compliant (product_view r)) rs = true ->
    forallb (fun r => json_compliant (order_view r)) os = true ->
    name_matcher rt name_ = inr m ->
    0 <= offset < 2 ^ 63 ->
    0 < limit_ < 2 ^ 63 ->
    Z.of_nat (List.length (listed "products"
                (list_products rt s name_ size_ limit_ offset))) <= limit_
    /\ Z.of_nat (List.length (listed "orders"
                   (get_user_orders rt s user_id_ limit_ offset))) <= limit_.
Proof.
  intros rt s name_ size_ user_id_ limit_ offset m rs os
         Hf Hps Hos Hfp Hfo Hm Hoff Hlim.
  assert (int64 (Z.abs limit_) = true) as Hint.
  { rewrite Z.abs_eq by lia. unfold int64.
    apply andb_true_iff. split; [apply Z.leb_le | apply Z.ltb_lt]; lia. }
  assert (forall A (l : list A),
            Z.of_nat (List.length (paginate limit_ offset l)) <= limit_) as Hp.
  { intros A l. unfold paginate, apply_limit.
    destruct (limit_ =? 0) eqn:E; [apply Z.eqb_eq in E; lia|].
    rewrite Z.abs_eq by lia.
    pose proof (firstn_le_length (Z.to_nat limit_)
                  (skipn (Z.to_nat offset) l)). lia. }
  rewrite (list_products_ok rt s name_ size_ limit_ offset m rs
             Hf Hps Hfp Hm Hoff Hint).
  rewrite (get_user_orders_ok rt s user_id_ limit_ offset os
             Hf Hos Hfo Hoff Hint).
  unfold listed. cbn [content String.eqb Ascii.eqb Bool.eqb].
  rewrite !length_map. split; apply Hp.
Qed.

Lemma positive_limit_bounds_the_page_witness :
  Z.of_nat (List.length (listed "products"
              (list_products Examples.rt0 shop3 None None 2 0))) <= 2
  /\ List.length (listed "products"
       (list_products Examples.rt0 shop3 None None 2 0)) = 2%nat.
Proof.
  split; [|reflexivity].
  refine (proj1 (positive_limit_bounds_the_page Examples.rt0 shop3 None None
                   "u1" 2 0 (fun _ => true) three_records [] _ _ _ _ _ _ _ _)).
  - reflexivity.
  - reflexivity.
  - reflexivity.
  - reflexivity.
  - reflexivity.
  - reflexivity.
  - lia.
  - lia.
Defined.

(** ** A missing product is named *)

(** X21: an order naming a product that is not in the catalogue is refused
    with the client fault that names it, and nothing is written.  Against a
    reachable store, if the items of a CreateOrder request name existing
    products up to one whose product_id is a well-formed identifier (24 hex
    digits) of no stored product, the response is 400 with detail
    "Product <that product_id> not found" and the store is exactly as
    before, whatever follows that item. *)
Theorem missing_product_is_named :
  forall rt s order now pre item post oid,
    server_fault s = None ->
    items order = (pre ++ item :: post)%list ->
    Forall (fun it => product_exists s (product_id it)) pre ->
    ObjectId_of_str (product_id item) = inr oid ->
    ~ product_exists s (product_id item) ->
    create_order rt s order now =
      (s, error_response 400 ("Product " ++ product_id item ++ " not found")).
Proof.
  intros rt s order now pre item post oid Hf Hitems Hpre Hoid Hmiss.
  rewrite (create_order_check_fails rt s order now
             (HTTPException 400 ("Product " ++ product_id item ++ " not found"))).
  - reflexivity.
  - rewrite Hitems. now apply check_items_first_missing with (oid := oid).
Qed.

Lemma missing_product_is_named_witness :
  create_order Examples.rt0 Examples.shop
    (Examples.order_of [Examples.item Examples.id0 Examples.f0_1;
                        Examples.item Examples.id1 Examples.f0_2]) 7 =
  (Examples.shop,
   error_response 400 "Product 000000000000000000000001 not found").
Proof.
  refine (missing_product_is_named Examples.rt0 Examples.shop _ 7
            [Examples.item Examples.id0 Examples.f0_1]
            (Examples.item Examples.id1 Examples.f0_2) [] 1%N _ _ _ _ _).
  - reflexivity.
  - reflexivity.
  - constructor; [exact shop_has_id0 | constructor].
  - reflexivity.
  - exact shop_lacks_id1.
Defined.
